(** * terraform-provider-bash: the bash_script data source

    A shallow embedding of [internal/bash] (variables.go,
    bash_script_drt.go and the provider's request handlers) together with
    the parts of the Go standard library and of terraform-plugin-go's
    [tftypes] that the package calls, followed by the properties of the
    validator and of the encoder.

    Go strings are byte sequences: they are [string] here, one [ascii] per
    byte.  A Go [map] is an association list with distinct keys whose order
    is the order in which one [range] loop happens to visit the entries. *)

From Stdlib Require Import Ascii NArith ZArith DecimalString.
From stdpp Require Import base numbers option list strings sorting.

Set Warnings "-register-all".
Open Scope N_scope.

(** ** Package unicode/utf8 *)
Module utf8.

Definition RuneError : N := 0xFFFD.
Definition RuneSelf : N := 0x80.
Definition MaxRune : N := 0x10FFFF.

Definition byte_of (c : ascii) : N := N_of_ascii c.
Definition to_byte (n : N) : ascii := ascii_of_N (N.land n 0xFF).

(** Continuation bytes lie in [locb, hicb]. *)
Definition locb : N := 0x80.
Definition hicb : N := 0xBF.

(** The [first] table with its accept ranges: for a leading byte, the size
    of the sequence and the range allowed for the second byte. *)
Definition first (b : N) : option (nat * (N * N)) :=
  if b <? 0xC2 then None
  else if b <=? 0xDF then Some (2%nat, (locb, hicb))
  else if b =? 0xE0 then Some (3%nat, (0xA0, hicb))
  else if b =? 0xED then Some (3%nat, (locb, 0x9F))
  else if b <=? 0xEF then Some (3%nat, (locb, hicb))
  else if b =? 0xF0 then Some (4%nat, (0x90, hicb))
  else if b <=? 0xF3 then Some (4%nat, (locb, hicb))
  else if b =? 0xF4 then Some (4%nat, (locb, 0x8F))
  else None.

Definition cont (b : N) : bool := (locb <=? b) && (b <=? hicb).
Definition low6 (b : N) : N := N.land b 0x3F.

(** [DecodeRuneInString s]: the first rune of [s] and its width in bytes;
    an invalid or truncated encoding is [(RuneError, 1)]. *)
Definition DecodeRuneInString (s : string) : N * nat :=
  match s with
  | EmptyString => (RuneError, 0%nat)
  | String c0 rest =>
    let s0 := byte_of c0 in
    if s0 <? RuneSelf then (s0, 1%nat)
    else match first s0 with
    | None => (RuneError, 1%nat)
    | Some (sz, (lo, hi)) =>
      match rest with
      | EmptyString => (RuneError, 1%nat)
      | String c1 rest1 =>
        let s1 := byte_of c1 in
        if (s1 <? lo) || (hi <? s1) then (RuneError, 1%nat)
        else if (sz <=? 2)%nat
        then (N.lor (N.shiftl (N.land s0 0x1F) 6) (low6 s1), 2%nat)
        else match rest1 with
        | EmptyString => (RuneError, 1%nat)
        | String c2 rest2 =>
          let s2 := byte_of c2 in
          if negb (cont s2) then (RuneError, 1%nat)
          else if (sz <=? 3)%nat
          then (N.lor (N.shiftl (N.land s0 0x0F) 12)
                  (N.lor (N.shiftl (low6 s1) 6) (low6 s2)), 3%nat)
          else match rest2 with
          | EmptyString => (RuneError, 1%nat)
          | String c3 _ =>
            let s3 := byte_of c3 in
            if negb (cont s3) then (RuneError, 1%nat)
            else (N.lor (N.shiftl (N.land s0 0x07) 18)
                    (N.lor (N.shiftl (low6 s1) 12)
                       (N.lor (N.shiftl (low6 s2) 6) (low6 s3))), 4%nat)
          end
        end
      end
    end
  end.

Definition surrogate (r : N) : bool := (0xD800 <=? r) && (r <=? 0xDFFF).
Definition ValidRune (r : N) : bool := (r <=? MaxRune) && negb (surrogate r).

Definition encode3 (r : N) : string :=
  String (to_byte (N.lor 0xE0 (N.shiftr r 12)))
    (String (to_byte (N.lor 0x80 (low6 (N.shiftr r 6))))
       (String (to_byte (N.lor 0x80 (low6 r))) EmptyString)).

(** [AppendRune] on an empty buffer: the UTF-8 encoding of [r]. *)
Definition EncodeRune (r : N) : string :=
  if r <=? 0x7F then String (to_byte r) EmptyString
  else if r <=? 0x7FF then
    String (to_byte (N.lor 0xC0 (N.shiftr r 6)))
      (String (to_byte (N.lor 0x80 (low6 r))) EmptyString)
  else if negb (ValidRune r) then encode3 RuneError
  else if r <=? 0xFFFF then encode3 r
  else
    String (to_byte (N.lor 0xF0 (N.shiftr r 18)))
      (String (to_byte (N.lor 0x80 (low6 (N.shiftr r 12))))
         (String (to_byte (N.lor 0x80 (low6 (N.shiftr r 6))))
            (String (to_byte (N.lor 0x80 (low6 r))) EmptyString))).

(** [for i, c := range s]: the byte index and the rune of every step.
    [skip] counts the bytes of the current rune still to pass over. *)
Fixpoint range_from (skip i : nat) (s : string) : list (nat * N) :=
  match s with
  | EmptyString => []
  | String _ rest =>
    match skip with
    | S k => range_from k (S i) rest
    | O => let '(r, w) := DecodeRuneInString s in
           (i, r) :: range_from (pred w) (S i) rest
    end
  end.

Definition range (s : string) : list (nat * N) := range_from 0 0 s.

End utf8.

(** ** Package strings *)
Module strings.

(** [HasPrefix s prefix]. *)
Fixpoint HasPrefix (s prefix : string) : bool :=
  match prefix, s with
  | EmptyString, _ => true
  | String p prefix', String c s' =>
    if Ascii.eqb c p then HasPrefix s' prefix' else false
  | String _ _, EmptyString => false
  end.

(** The scan of [ReplaceAll] for a non-empty [old]: at every position
    where [old] starts, [new] is written and [old] is passed over;
    matches do not overlap.  [skip] counts the bytes of the current match
    still to pass over. *)
Fixpoint replace_from (skip : nat) (s old new : string) : string :=
  match s with
  | EmptyString => EmptyString
  | String c rest =>
    match skip with
    | S k => replace_from k rest old new
    | O => if HasPrefix s old
           then new +:+ replace_from (pred (String.length old)) rest old new
           else String c (replace_from 0 rest old new)
    end
  end.

(** The scan for an empty [old]: [new] goes before every UTF-8 sequence
    and at the end; the bytes of [s] are copied as they are. *)
Fixpoint insert_from (skip : nat) (s new : string) : string :=
  match s with
  | EmptyString => new
  | String c rest =>
    match skip with
    | S k => String c (insert_from k rest new)
    | O => new +:+
           String c (insert_from (pred (snd (utf8.DecodeRuneInString s))) rest new)
    end
  end.

(** [ReplaceAll s old new]. *)
Definition ReplaceAll (s old new : string) : string :=
  match old with
  | EmptyString => insert_from 0 s new
  | String _ _ => replace_from 0 s old new
  end.

End strings.

Definition dquote : ascii := "034"%char.
Definition squote : ascii := "'"%char.
Definition backslash : ascii := "\"%char.
Definition nl : string := String "010"%char EmptyString.

(** ** Package strconv *)
Module strconv.

(** The Unicode tables behind [IsPrint] for runes above U+00FF are data of
    the Go distribution; they are a parameter here. *)
Class PrintTables := isPrintWide : N → bool.

Definition lowerhex : string := "0123456789abcdef".

Definition hexdigit (n : N) : ascii :=
  default "0"%char (String.get (N.to_nat (N.land n 0xF)) lowerhex).

Definition hex2 (n : N) : string :=
  String (hexdigit (N.shiftr n 4)) (String (hexdigit n) EmptyString).

(** The digits [lowerhex[r>>s & 0xF]] for [s] from [4*(k-1)] down to 0. *)
Fixpoint hexn (k : nat) (r : N) : string :=
  match k with
  | O => EmptyString
  | S k' => String (hexdigit (N.shiftr r (4 * N.of_nat k'))) (hexn k' r)
  end.

Definition IsPrint `{PrintTables} (r : N) : bool :=
  if r <=? 0xFF then
    if (0x20 <=? r) && (r <=? 0x7E) then true
    else if 0xA1 <=? r then negb (r =? 0xAD)
    else false
  else isPrintWide r.

(** [appendEscapedRune] with the double quote as [quote], neither
    ASCII-only nor graphic-only, on an empty buffer. *)
Definition appendEscapedRune `{PrintTables} (r : N) : string :=
  if (r =? utf8.byte_of dquote) || (r =? utf8.byte_of backslash)
  then String backslash (String (utf8.to_byte r) EmptyString)
  else if IsPrint r then utf8.EncodeRune r
  else if r =? 7 then "\a"
  else if r =? 8 then "\b"
  else if r =? 12 then "\f"
  else if r =? 10 then "\n"
  else if r =? 13 then "\r"
  else if r =? 9 then "\t"
  else if r =? 11 then "\v"
  else if (r <? 0x20) || (r =? 0x7F) then "\x" +:+ hex2 r
  else if negb (utf8.ValidRune r) then "\u" +:+ hexn 4 utf8.RuneError
  else if r <? 0x10000 then "\u" +:+ hexn 4 r
  else "\U" +:+ hexn 8 r.

(** The loop of [appendQuotedWith]; [skip] counts the bytes of the
    current rune still to pass over. *)
Fixpoint quote_from `{PrintTables} (skip : nat) (s : string) : string :=
  match s with
  | EmptyString => String dquote EmptyString
  | String c rest =>
    match skip with
    | S k => quote_from k rest
    | O =>
      let s0 := utf8.byte_of c in
      let '(r, width) :=
        if s0 <? utf8.RuneSelf then (s0, 1%nat)
        else utf8.DecodeRuneInString s in
      (if (width =? 1)%nat && (r =? utf8.RuneError)
       then "\x" +:+ hex2 s0
       else appendEscapedRune r) +:+ quote_from (pred width) rest
    end
  end.

(** [Quote s], which is what the verb [%q] of package fmt prints. *)
Definition Quote `{PrintTables} (s : string) : string :=
  String dquote (quote_from 0 s).

End strconv.

(** ** Package math/big *)
Module big.

(** A [Float] is a zero, an infinity or a finite number, each with a
    sign.  A finite [Float] is [mant * 2^exp] up to its sign, with a
    mantissa of [prec] bits: the value the library holds as
    [0.mant' * 2^exp'] with [mant'] of [MinPrec] bits is
    [mant' * 2^(exp' - MinPrec)] here, and any other pair with the same
    product stands for it as well. *)
Inductive Float : Type :=
  | Zero (neg : bool)
  | Finite (neg : bool) (mant : positive) (exp : Z) (prec : N)
  | Inf (neg : bool).

(** Whether [mant * 2^exp] is a whole number. *)
Definition integral (m : positive) (e : Z) : bool :=
  if (0 <=? e)%Z then true else Npos m mod 2 ^ Z.to_N (- e) =? 0.

Definition IsInt (x : Float) : bool :=
  match x with
  | Zero _ => true
  | Finite _ m e _ => integral m e
  | Inf _ => false
  end.

(** The whole number that [mant * 2^exp] is when it is [integral]. *)
Definition whole (m : positive) (e : Z) : N :=
  if (0 <=? e)%Z then Npos m * 2 ^ Z.to_N e else Npos m / 2 ^ Z.to_N (- e).

Definition digits (n : N) : list ascii :=
  String.list_ascii_of_string (NilZero.string_of_uint (N.to_uint n)).

Fixpoint strip_zeros (l : list ascii) : list ascii :=
  match l with
  | [] => []
  | c :: l' =>
    match strip_zeros l' with
    | [] => if Ascii.eqb c "0" then [] else [c]
    | r => c :: r
    end
  end.

(** The decimal expansion of [n / 10^k], which is finite. *)
Definition decimal (n : N) (k : nat) : string :=
  let ds := digits n in
  let ds := replicate (S k - length ds) "0"%char ++ ds in
  let int_part := take (length ds - k) ds in
  match strip_zeros (drop (length ds - k) ds) with
  | [] => String.string_of_list_ascii int_part
  | frac => String.string_of_list_ascii (int_part ++ "."%char :: frac)
  end.

(** The exact decimal expansion of [mant * 2^exp], which is that of
    [mant * 5^(-exp) / 10^(-exp)] below the point. *)
Definition expansion (m : positive) (e : Z) : string :=
  if integral m e then NilZero.string_of_uint (N.to_uint (whole m e))
  else
    let k := Z.to_nat (- e) in
    decimal (Npos m * 5 ^ N.of_nat k) k.

(** How many digits the expansion has between its first and its last
    digit that is not zero. *)
Definition significant (m : positive) (e : Z) : N :=
  N.of_nat (length (strip_zeros (digits
    (if integral m e then whole m e
     else Npos m * 5 ^ Z.to_N (- e))))).

(** [x.Text('f', -1)] prints, without an exponent, the shortest decimal
    that reads back as [x] at the precision of [x]: the first decimal, going
    digit by digit along the expansion of [x], that lies within half a unit
    of the last mantissa bit of [x].  No decimal with fewer digits than the
    expansion lies that close when the expansion has [n] digits and
    [10^n <= 2^prec], since such a decimal is off by a unit of the last
    digit of the expansion at least; nor when [x] is a whole number below
    [2^prec], since half a unit of its last bit is half of one at most.
    Then the text is the expansion itself. *)
Definition settled (m : positive) (e : Z) (p : N) : bool :=
  (10 ^ significant m e <=? 2 ^ p)
  || (integral m e && (whole m e <? 2 ^ p)).

(** Anywhere else the digits come out of the rounding that the library
    does on its decimal form; they are a parameter here. *)
Class Shortest := shortest : positive → Z → N → string.

Definition Text `{Shortest} (x : Float) : string :=
  match x with
  | Zero neg => (if neg then "-" else EmptyString) +:+ "0"
  | Finite neg m e p =>
    (if neg then "-" else EmptyString) +:+
    (if settled m e p then expansion m e else shortest m e p)
  | Inf neg => if neg then "-Inf" else "+Inf"
  end.

End big.

(** ** Go maps with string keys *)

(** [m[k]] with the comma-ok form. *)
Fixpoint mapGet {V} (m : list (string * V)) (k : string) : option V :=
  match m with
  | [] => None
  | (k', v) :: m' => if String.eqb k' k then Some v else mapGet m' k
  end.

(** [m[k] = v]. *)
Fixpoint mapSet {V} (m : list (string * V)) (k : string) (v : V)
  : list (string * V) :=
  match m with
  | [] => [(k, v)]
  | (k', v') :: m' =>
    if String.eqb k' k then (k, v) :: m' else (k', v') :: mapSet m' k v
  end.

(** ** Package tftypes of terraform-plugin-go *)
Module tftypes.

Inductive Type_ : Type :=
  | String
  | Number
  | Bool
  | DynamicPseudoType
  | List (ElementType : Type_)
  | Set_ (ElementType : Type_)
  | Map (AttributeType : Type_)
  | Tuple (ElementTypes : list Type_)
  | Object (AttributeTypes : list (string * Type_)).

(** [t.Is(u)] for fully specified types: the same type constructor on
    component types that agree; two object types agree when they have
    as many attributes and every attribute of the first is one of the
    second with a type that agrees. *)
Fixpoint Type_Is (t u : Type_) {struct t} : bool :=
  match t, u with
  | String, String | Number, Number | Bool, Bool
  | DynamicPseudoType, DynamicPseudoType => true
  | List a, List b | Set_ a, Set_ b | Map a, Map b => Type_Is a b
  | Tuple ts, Tuple us =>
    (fix all2 (ts us : list Type_) {struct ts} : bool :=
       match ts, us with
       | [], [] => true
       | t' :: ts', u' :: us' => Type_Is t' u' && all2 ts' us'
       | _, _ => false
       end) ts us
  | Object ts, Object us =>
    (length ts =? length us)%nat &&
    (fix all (ts : list (string * Type_)) {struct ts} : bool :=
       match ts with
       | [] => true
       | (k, t') :: ts' =>
         match mapGet us k with
         | Some u' => Type_Is t' u'
         | None => false
         end && all ts'
       end) ts
  | _, _ => false
  end.

(** A [Value] is a type (nil in the zero [Value]) and a Go value: nil for
    null, the unknown marker, a string, a [*big.Float], a bool, a
    [[]Value] or a [map[string]Value]. *)
Inductive Value : Type :=
  | mkValue (typ : option Type_) (value : Payload)
with Payload : Type :=
  | vNil
  | vUnknown
  | vString (s : string)
  | vFloat (f : big.Float)
  | vBool (b : bool)
  | vSlice (l : list Value)
  | vMap (m : list (string * Value)).

Definition typ (val : Value) : option Type_ := let '(mkValue t _) := val in t.
Definition value (val : Value) : Payload := let '(mkValue _ p) := val in p.

Definition zero : Value := mkValue None vNil.
Definition NewValue (t : Type_) (p : Payload) : Value := mkValue (Some t) p.

(** [val.Is(t)] for a type [t] that is not nil. *)
Definition Is (val : Value) (t : Type_) : bool :=
  match typ val with
  | None => false
  | Some ty => Type_Is ty t
  end.

Definition IsKnown (val : Value) : bool :=
  match value val with vUnknown => false | _ => true end.

Definition IsNull (val : Value) : bool :=
  match value val with vNil => true | _ => false end.

(** The Go pointers that [As] is given in this program. *)
Inductive GoTarget : Type := ptrString | ptrFloat | ptrSlice | ptrMap.

Inductive error : Type :=
  | errorString (text : string)
  | asError (val : Value) (target : GoTarget).

(** The wording of the errors of [As] belongs to the library; it is a
    parameter here. *)
Class ErrorTexts := asErrorText : Value → GoTarget → string.

Definition Error `{ErrorTexts} (e : error) : string :=
  match e with
  | errorString text => text
  | asError val target => asErrorText val target
  end.

Inductive Result (A : Type) : Type :=
  | Ok (a : A)
  | Err (e : error).
Arguments Ok {A} a.
Arguments Err {A} e.

(** [val.As(&s)], [val.As(&f)], [val.As(&l)] and [val.As(&m)]: an unknown
    value is refused, null gives the zero value of the target, and
    otherwise the Go value must be of the kind asked for. *)
Definition As_string (val : Value) : Result string :=
  match value val with
  | vNil => Ok EmptyString
  | vString s => Ok s
  | _ => Err (asError val ptrString)
  end.

Definition As_Float (val : Value) : Result big.Float :=
  match value val with
  | vNil => Ok (big.Zero false)
  | vFloat f => Ok f
  | _ => Err (asError val ptrFloat)
  end.

Definition As_slice (val : Value) : Result (list Value) :=
  match value val with
  | vNil => Ok []
  | vSlice l => Ok l
  | _ => Err (asError val ptrSlice)
  end.

Definition As_map (val : Value) : Result (list (string * Value)) :=
  match value val with
  | vNil => Ok []
  | vMap m => Ok m
  | _ => Err (asError val ptrMap)
  end.

(** What a variable declared just before [val.As(&x)] holds after the
    call when the error is dropped: the zero value [z] if it failed. *)
Definition or_zero {A} (z : A) (r : Result A) : A :=
  match r with Ok a => a | Err _ => z end.

Definition AttributePath : Type := list string.

End tftypes.

(** ** Package tfprotov5 of terraform-plugin-go *)
Module tfprotov5.

Inductive DiagnosticSeverity : Type :=
  | DiagnosticSeverityInvalid
  | DiagnosticSeverityError
  | DiagnosticSeverityWarning.

Record Diagnostic : Type := mkDiagnostic {
  Severity : DiagnosticSeverity;
  Summary : string;
  Detail : string;
  Attribute : option tftypes.AttributePath
}.

(** A [DynamicValue] is the wire form of a value.  The codec is outside
    this development, and a wire form stands for what it decodes to:
    [Encoded v] for any value [v] that decoding may give, whether or not
    it has the shape of the type that is asked for, and [Malformed text]
    for a wire form that is refused with the error [text].
    [NewDynamicValue] keeps the value it is given, so that the state a
    handler returns can be looked at as a value; what the wire form of the
    library does to a number or to the order of a map is not stated. *)
Inductive DynamicValue : Type :=
  | Encoded (v : tftypes.Value)
  | Malformed (text : string).

Definition Unmarshal (raw : DynamicValue) (ty : tftypes.Type_)
  : tftypes.Result tftypes.Value :=
  match raw with
  | Encoded v => tftypes.Ok v
  | Malformed text => tftypes.Err (tftypes.errorString text)
  end.

Definition NewDynamicValue (ty : tftypes.Type_) (v : tftypes.Value)
  : tftypes.Result DynamicValue :=
  tftypes.Ok (Encoded v).

End tfprotov5.

(** ** Package sort *)
Module sort.

(** [sort.Strings]: the names in increasing byte-wise order. *)
Definition Strings (names : list string) : list string :=
  merge_sort String.le names.

End sort.

(** ** Package bash (internal/bash) *)
Module bash.
Import tfprotov5.

(** *** variables.go *)

Definition bashQuoteString (s : string) : string :=
  "'" +:+ strings.ReplaceAll s "'" "'\''" +:+ "'".

Definition rune_of (c : ascii) : N := N_of_ascii c.

Definition validVariableNameInitialCharacter (c : N) : bool :=
  if c =? rune_of "_" then true
  else if (rune_of "A" <=? c) && (c <=? rune_of "Z") then true
  else if (rune_of "a" <=? c) && (c <=? rune_of "z") then true
  else false.

Definition validVariableNameSubsequentCharacter (c : N) : bool :=
  if validVariableNameInitialCharacter c then true
  else if (rune_of "0" <=? c) && (c <=? rune_of "9") then true
  else false.

(** The loop of [validVariableName] over the steps of [range s]. *)
Fixpoint validVariableName_loop (steps : list (nat * N)) : bool :=
  match steps with
  | [] => true
  | (i, c) :: steps' =>
    if (i =? 0)%nat then
      if negb (validVariableNameInitialCharacter c) then false
      else validVariableName_loop steps'
    else
      if negb (validVariableNameSubsequentCharacter c) then false
      else validVariableName_loop steps'
  end.

Definition validVariableName (s : string) : bool :=
  if (String.length s =? 0)%nat then false
  else validVariableName_loop (utf8.range s).

Definition listOfString : tftypes.Type_ := tftypes.List tftypes.String.
Definition mapOfString : tftypes.Type_ := tftypes.Map tftypes.String.

(** [for i, ev := range l] of the list case, on the buffer. *)
Fixpoint writeElements (i : nat) (l : list tftypes.Value) (buf : string)
  : string :=
  match l with
  | [] => buf
  | ev :: l' =>
    let es := tftypes.or_zero EmptyString (tftypes.As_string ev) in
    let buf := if negb (i =? 0)%nat then buf +:+ " " else buf in
    let buf := buf +:+ bashQuoteString es in
    writeElements (S i) l' buf
  end.

(** [for ek, ev := range m] of the map case, on the buffer; the entries
    come in the order in which this loop visits the map. *)
Fixpoint writeEntries (i : nat) (m : list (string * tftypes.Value))
  (buf : string) : string :=
  match m with
  | [] => buf
  | (ek, ev) :: m' =>
    let es := tftypes.or_zero EmptyString (tftypes.As_string ev) in
    let buf := if negb (i =? 0)%nat then buf +:+ " " else buf in
    let buf := buf +:+ bashQuoteString ek in
    let buf := buf +:+ " " in
    let buf := buf +:+ bashQuoteString es in
    writeEntries (S i) m' buf
  end.

Section Encoder.
Context `{!strconv.PrintTables} `{!big.Shortest}.

(** The body of [for _, name := range names], on the buffer. *)
Definition writeDecl (vars : list (string * tftypes.Value))
  (buf : string) (name : string) : string :=
  let val := default tftypes.zero (mapGet vars name) in
  if tftypes.Is val tftypes.String then
    let s := tftypes.or_zero EmptyString (tftypes.As_string val) in
    let buf := buf +:+ "declare -r " in
    let buf := buf +:+ name in
    let buf := buf +:+ "=" in
    let buf := buf +:+ bashQuoteString s in
    buf +:+ nl
  else if tftypes.Is val tftypes.Number then
    let f := tftypes.or_zero (big.Zero false) (tftypes.As_Float val) in
    let buf := buf +:+ "declare -ri " in
    let buf := buf +:+ name in
    let buf := buf +:+ "=" in
    let buf := buf +:+ big.Text f in
    buf +:+ nl
  else if tftypes.Is val listOfString then
    let l := tftypes.or_zero [] (tftypes.As_slice val) in
    let buf := buf +:+ "declare -ra " in
    let buf := buf +:+ name in
    let buf := buf +:+ "=(" in
    let buf := writeElements 0 l buf in
    buf +:+ ")" +:+ nl
  else if tftypes.Is val mapOfString then
    let m := tftypes.or_zero [] (tftypes.As_map val) in
    let buf := buf +:+ "declare -rA " in
    let buf := buf +:+ name in
    let buf := buf +:+ "=(" in
    let buf := writeEntries 0 m buf in
    buf +:+ ")" +:+ nl
  else
    buf +:+ "# ERROR: Don't know how to serialize " +:+ strconv.Quote name
        +:+ " for bash" +:+ nl.

Definition variablesToBashDecls (vars : list (string * tftypes.Value))
  : string :=
  if (length vars =? 0)%nat then EmptyString
  else
    let buf := EmptyString in
    let names := foldl (fun names '(name, _) => names ++ [name]) [] vars in
    let names := sort.Strings names in
    foldl (writeDecl vars) buf names.

End Encoder.

(** *** bash_script_drt.go *)

Record bashScriptConfig : Type := mkConfig {
  Source : string;
  Variables : list (string * tftypes.Value)
}.

Definition bashScriptType : tftypes.Type_ :=
  tftypes.Object [
    ("source", tftypes.String);
    ("variables", tftypes.DynamicPseudoType);
    ("result", tftypes.String)
  ].

(** A call either returns or panics. *)
Inductive Outcome (A : Type) : Type :=
  | Returned (a : A)
  | Panicked (msg : string).
Arguments Returned {A} a.
Arguments Panicked {A} msg.

Definition errorDiag (summary detail : string)
  (attribute : option tftypes.AttributePath) : Diagnostic :=
  {| Severity := DiagnosticSeverityError;
     Summary := summary;
     Detail := detail;
     Attribute := attribute |}.

Section Decoder.
Context `{!strconv.PrintTables} `{!tftypes.ErrorTexts} `{!big.Shortest}.

(** The body of [for name, val := range ret.Variables], on [diags]. *)
Definition validateVariable (diags : list Diagnostic)
  (entry : string * tftypes.Value) : list Diagnostic :=
  let '(name, val) := entry in
  if (String.length name =? 0)%nat then
    diags ++ [errorDiag "Invalid variable name"
                "The empty string is not a valid Bash variable name."
                (Some ["variables"; name])]
  else if negb (validVariableName name) then
    diags ++ [errorDiag "Invalid variable name"
                ("Cannot use " +:+ strconv.Quote name
                   +:+ " as a Bash variable name.")
                (Some ["variables"; name])]
  else if tftypes.Is val tftypes.String then diags
  else if tftypes.Is val tftypes.Number then
    match tftypes.As_Float val with
    | tftypes.Err err =>
      diags ++ [errorDiag "Invalid variable value"
                  ("Failed to decode " +:+ strconv.Quote name
                     +:+ " as a number: " +:+ tftypes.Error err +:+ ".")
                  (Some ["variables"; name])]
    | tftypes.Ok f =>
      if negb (big.IsInt f) then
        diags ++ [errorDiag "Invalid variable value"
                    ("Can't use " +:+ big.Text f +:+ " as value of "
                       +:+ strconv.Quote name
                       +:+ ": Bash doesn't support floating-point numbers.")
                    (Some ["variables"; name])]
      else diags
    end
  else if tftypes.Is val listOfString then diags
  else if tftypes.Is val mapOfString then diags
  else
    diags ++ [errorDiag "Invalid variable value"
                ("Invalid value for Bash variable " +:+ strconv.Quote name
                   +:+ ": Bash only supports strings, whole numbers, lists of strings, and maps of strings.")
                (Some ["variables"; name])].

Definition schemaMismatch (err : tftypes.error) : Diagnostic :=
  errorDiag "Invalid configuration"
    ("The given configuration doesn't match the expected schema: "
       +:+ tftypes.Error err +:+ ".")
    None.

Definition newBashScriptConfig (raw : DynamicValue)
  : Outcome (bashScriptConfig * list Diagnostic) :=
  let ret := mkConfig EmptyString [] in
  let diags := [] in
  match Unmarshal raw bashScriptType with
  | tftypes.Err err => Returned (ret, diags ++ [schemaMismatch err])
  | tftypes.Ok lessRaw =>
    match tftypes.As_map lessRaw with
    | tftypes.Err err => Returned (ret, diags ++ [schemaMismatch err])
    | tftypes.Ok obj =>
      match tftypes.As_string (default tftypes.zero (mapGet obj "source")) with
      | tftypes.Err _ => Panicked "source isn't a string"
      | tftypes.Ok source =>
        let ret := mkConfig source (Variables ret) in
        let '(ret, diags) :=
          match tftypes.As_map
                  (default tftypes.zero (mapGet obj "variables")) with
          | tftypes.Err _ =>
            (ret,
             diags ++ [errorDiag "Invalid variables"
               ("The " +:+ String dquote ("variables" +:+ String dquote
                  " argument must be an object with one attribute per variable you wish to declare for the Bash script."))
               (Some ["variables"])])
          | tftypes.Ok variables => (mkConfig (Source ret) variables, diags)
          end in
        let diags := foldl validateVariable diags (Variables ret) in
        Returned (ret, diags)
      end
    end
  end.

End Decoder.

(** [variablesType] recomputes the object type of the variables. *)
Definition variablesType (vars : list (string * tftypes.Value))
  : tftypes.Type_ :=
  if (length vars =? 0)%nat then tftypes.Object []
  else
    let atys :=
      foldl (fun atys '(k, v) =>
               if tftypes.Is v tftypes.String then mapSet atys k tftypes.String
               else if tftypes.Is v tftypes.Number then mapSet atys k tftypes.Number
               else if tftypes.Is v listOfString then mapSet atys k listOfString
               else if tftypes.Is v mapOfString then mapSet atys k mapOfString
               else mapSet atys k tftypes.DynamicPseudoType)
        [] vars in
    tftypes.Object atys.

Definition ResultObject (c : bashScriptConfig) (result : string)
  : tftypes.Value :=
  let vty := variablesType (Variables c) in
  tftypes.NewValue bashScriptType (tftypes.vMap [
    ("source", tftypes.NewValue tftypes.String (tftypes.vString (Source c)));
    ("variables", tftypes.NewValue vty (tftypes.vMap (Variables c)));
    ("result", tftypes.NewValue tftypes.String (tftypes.vString result))
  ]).

Definition ResultDynamicValue `{!tftypes.ErrorTexts}
  (c : bashScriptConfig) (result : string) : Outcome DynamicValue :=
  match NewDynamicValue bashScriptType (ResultObject c result) with
  | tftypes.Err err =>
    Panicked ("failed to build dynamic value: " +:+ tftypes.Error err)
  | tftypes.Ok v => Returned v
  end.

(** *** The provider's handlers for the data source *)

Record DataSourceRequest : Type := mkRequest {
  TypeName : string;
  Config : DynamicValue
}.

Record ValidateDataSourceConfigResponse : Type := mkValidateResponse {
  ValidateDiagnostics : list Diagnostic
}.

Record ReadDataSourceResponse : Type := mkReadResponse {
  State : option DynamicValue;
  Diagnostics : list Diagnostic
}.

Section Provider.
Context `{!strconv.PrintTables} `{!tftypes.ErrorTexts} `{!big.Shortest}.

Definition ValidateDataSourceConfig (req : DataSourceRequest)
  : Outcome (tftypes.Result ValidateDataSourceConfigResponse) :=
  if negb (bool_decide (TypeName req = "bash_script")) then
    Returned (tftypes.Err (tftypes.errorString
      ("unsupported data resource type " +:+ TypeName req)))
  else
    match newBashScriptConfig (Config req) with
    | Panicked msg => Panicked msg
    | Returned (_, diags) =>
      Returned (tftypes.Ok (mkValidateResponse diags))
    end.

Definition ReadDataSource (req : DataSourceRequest)
  : Outcome (tftypes.Result ReadDataSourceResponse) :=
  if negb (bool_decide (TypeName req = "bash_script")) then
    Returned (tftypes.Err (tftypes.errorString
      ("unsupported data resource type " +:+ TypeName req)))
  else
    match newBashScriptConfig (Config req) with
    | Panicked msg => Panicked msg
    | Returned (config, diags) =>
      if negb (length diags =? 0)%nat then
        Returned (tftypes.Ok (mkReadResponse None diags))
      else
        let varDecls := variablesToBashDecls (Variables config) in
        match ResultDynamicValue config varDecls with
        | Panicked msg => Panicked msg
        | Returned ret =>
          Returned (tftypes.Ok (mkReadResponse (Some ret) diags))
        end
    end.

End Provider.

End bash.

(** ** What the properties are measured against *)

(** *** Single quoting in the shell

    One shell word is read left to right.  Outside quotes a single quote
    opens a quoted stretch, a backslash makes the next byte literal (and,
    before a newline, joins two lines), and a blank or a byte the shell
    gives a meaning to is not part of a literal word.  Inside single quotes
    every byte up to the next single quote stands for itself. *)
Module sh.

Inductive Mode : Type := Plain | Quoted | Escaped.

Definition special (c : ascii) : bool :=
  bool_decide (c ∈ String.list_ascii_of_string " |&;()<>$`*?[]#~=%!{}"
               ∨ c = dquote ∨ c = "009"%char ∨ c = "010"%char).

Fixpoint word (mode : Mode) (s : string) : option string :=
  match s with
  | EmptyString =>
    match mode with Plain => Some EmptyString | _ => None end
  | String c rest =>
    match mode with
    | Quoted =>
      if Ascii.eqb c squote then word Plain rest
      else String c <$> word Quoted rest
    | Escaped =>
      if Ascii.eqb c "010" then word Plain rest
      else String c <$> word Plain rest
    | Plain =>
      if Ascii.eqb c squote then word Quoted rest
      else if Ascii.eqb c backslash then word Escaped rest
      else if special c then None
      else String c <$> word Plain rest
    end
  end.

Definition unquote (s : string) : option string := word Plain s.

(** Several words: outside quotes a space, a tab or a newline ends the
    word in progress, if there is one.  [cur] is the word in progress. *)
Definition blank (c : ascii) : bool :=
  Ascii.eqb c " " || Ascii.eqb c "009" || Ascii.eqb c "010".

Definition push (cur : option string) (c : ascii) : option string :=
  Some (default EmptyString cur +:+ String c EmptyString).

Fixpoint fields (mode : Mode) (cur : option string) (s : string)
  : option (list string) :=
  match s with
  | EmptyString =>
    match mode with Plain => Some (option_list cur) | _ => None end
  | String c rest =>
    match mode with
    | Quoted =>
      if Ascii.eqb c squote then fields Plain cur rest
      else fields Quoted (push cur c) rest
    | Escaped =>
      if Ascii.eqb c "010" then fields Plain cur rest
      else fields Plain (push cur c) rest
    | Plain =>
      if Ascii.eqb c squote
      then fields Quoted (Some (default EmptyString cur)) rest
      else if Ascii.eqb c backslash then fields Escaped cur rest
      else if blank c
      then (app (option_list cur)) <$> fields Plain None rest
      else if special c then None
      else fields Plain (push cur c) rest
    end
  end.

End sh.

(** Every single quote replaced by the four bytes that close the quoted
    stretch, give an escaped quote and open a new stretch. *)
Fixpoint escapeQuotes (s : string) : string :=
  match s with
  | EmptyString => EmptyString
  | String c rest =>
    if Ascii.eqb c squote then "'\''" +:+ escapeQuotes rest
    else String c (escapeQuotes rest)
  end.

(** *** Names of the form [A-Za-z_][A-Za-z0-9_]* *)

Definition letters : list ascii :=
  String.list_ascii_of_string
    "ABCDEFGHIJKLMNOPQRSTUVWXYZabcdefghijklmnopqrstuvwxyz".

Definition decimals : list ascii := String.list_ascii_of_string "0123456789".

Definition underscore : ascii := "_"%char.

Inductive identifier : string → Prop :=
  | identifier_intro (c : ascii) (rest : string) :
      c ∈ underscore :: letters →
      Forall (λ d, d ∈ underscore :: letters ++ decimals)
        (String.list_ascii_of_string rest) →
      identifier (String c rest).

(** *** The merge of the declarations with the body, as the documentation
    of the data source shows it: a first line that starts with the
    interpreter marker stays first. *)
Fixpoint firstLine (s : string) : string * string :=
  match s with
  | EmptyString => (EmptyString, EmptyString)
  | String c rest =>
    if Ascii.eqb c "010" then (String c EmptyString, rest)
    else let '(line, rest') := firstLine rest in (String c line, rest')
  end.

Definition mergedScript (decls body : string) : string :=
  if strings.HasPrefix body "#!" then
    let '(line, rest) := firstLine body in line +:+ decls +:+ rest
  else decls +:+ body.

(** *** Requests *)

Definition stringValue (s : string) : tftypes.Value :=
  tftypes.NewValue tftypes.String (tftypes.vString s).

Definition numberValue (f : big.Float) : tftypes.Value :=
  tftypes.NewValue tftypes.Number (tftypes.vFloat f).

Definition listValue (l : list string) : tftypes.Value :=
  tftypes.NewValue bash.listOfString (tftypes.vSlice (stringValue <$> l)).

Definition mapValue (m : list (string * string)) : tftypes.Value :=
  tftypes.NewValue bash.mapOfString
    (tftypes.vMap (prod_map id stringValue <$> m)).

(** The configuration Terraform sends for a [bash_script] block with the
    given source and an object of variables; [result] is not yet known. *)
Definition configOf (source : string) (vars : list (string * tftypes.Value))
  : tfprotov5.DynamicValue :=
  tfprotov5.Encoded (tftypes.NewValue bash.bashScriptType (tftypes.vMap [
    ("source", stringValue source);
    ("variables",
     tftypes.NewValue (bash.variablesType vars) (tftypes.vMap vars));
    ("result", tftypes.NewValue tftypes.String tftypes.vNil)
  ])).

Definition requestOf (source : string) (vars : list (string * tftypes.Value))
  : bash.DataSourceRequest :=
  bash.mkRequest "bash_script" (configOf source vars).

(** The [result] attribute of a state, if the state has one. *)
Definition resultOf (state : tfprotov5.DynamicValue) : option string :=
  match state with
  | tfprotov5.Encoded (tftypes.mkValue _ (tftypes.vMap obj)) =>
    match mapGet obj "result" with
    | Some (tftypes.mkValue _ (tftypes.vString s)) => Some s
    | _ => None
    end
  | _ => None
  end.

(** The diagnostics that point at the variable [name]. *)
Definition diagnosticsFor (name : string)
  (diags : list tfprotov5.Diagnostic) : list tfprotov5.Diagnostic :=
  filter (λ d, tfprotov5.Attribute d = Some ["variables"; name]) diags.

(** The texts of a list one after the other, and with a blank before
    each but the first. *)
Definition cat (l : list string) : string := foldr String.append EmptyString l.

Definition spaced (l : list string) : string :=
  match l with
  | [] => EmptyString
  | x :: l' => x +:+ cat ((String.append " ") <$> l')
  end.

(** An element of a list and an entry of a map as the encoder writes
    them. *)
Definition quoted (ev : tftypes.Value) : string :=
  bash.bashQuoteString (tftypes.or_zero EmptyString (tftypes.As_string ev)).

Definition quotedEntry (e : string * tftypes.Value) : string :=
  bash.bashQuoteString e.1 +:+ " " +:+ quoted e.2.

(** The line that [writeDecl] adds for [name]. *)
Definition declOf `{!strconv.PrintTables} `{!big.Shortest}
  (vars : list (string * tftypes.Value)) (name : string) : string :=
  bash.writeDecl vars EmptyString name.

(** The two character checks on a byte taken as a rune. *)
Definition initialByte (c : ascii) : bool :=
  bash.validVariableNameInitialCharacter (bash.rune_of c).

Definition subsequentByte (c : ascii) : bool :=
  bash.validVariableNameSubsequentCharacter (bash.rune_of c).

(** Print tables and error texts to run the handlers with. *)
Definition noWideRunes : strconv.PrintTables := λ _, false.

Definition plainErrors : tftypes.ErrorTexts :=
  λ _ _, "unsupported conversion".

(** Digits to run them with where the library rounds: those of the
    expansion. *)
Definition unrounded : big.Shortest := λ m e _, big.expansion m e.

(** The diagnostics of the value check. *)
Definition fractionalDiag `{!strconv.PrintTables} `{!big.Shortest}
  (name : string)
  (f : big.Float) : tfprotov5.Diagnostic :=
  bash.errorDiag "Invalid variable value"
    ("Can't use " +:+ big.Text f +:+ " as value of " +:+ strconv.Quote name
       +:+ ": Bash doesn't support floating-point numbers.")
    (Some ["variables"; name]).

Definition unsupportedDiag `{!strconv.PrintTables} (name : string)
  : tfprotov5.Diagnostic :=
  bash.errorDiag "Invalid variable value"
    ("Invalid value for Bash variable " +:+ strconv.Quote name
       +:+ ": Bash only supports strings, whole numbers, lists of strings, and maps of strings.")
    (Some ["variables"; name]).

(** The same two diagnostics with the name written out between double
    quotes. *)
Definition inQuotes (name : string) : string :=
  String dquote (name +:+ String dquote EmptyString).

Definition fractionalReport `{!big.Shortest} (name : string) (f : big.Float)
  : tfprotov5.Diagnostic :=
  bash.errorDiag "Invalid variable value"
    ("Can't use " +:+ big.Text f +:+ " as value of " +:+ inQuotes name
       +:+ ": Bash doesn't support floating-point numbers.")
    (Some ["variables"; name]).

Definition unsupportedReport (name : string) : tfprotov5.Diagnostic :=
  bash.errorDiag "Invalid variable value"
    ("Invalid value for Bash variable " +:+ inQuotes name
       +:+ ": Bash only supports strings, whole numbers, lists of strings, and maps of strings.")
    (Some ["variables"; name]).

(** A value whose type is none of the four the encoder knows. *)
Definition unsupported (val : tftypes.Value) : Prop :=
  tftypes.Is val tftypes.String = false
  ∧ tftypes.Is val tftypes.Number = false
  ∧ tftypes.Is val bash.listOfString = false
  ∧ tftypes.Is val bash.mapOfString = false.

(** A value that passes the value check: its type is one of the four,
    and a number is whole. *)
Definition wholeNumber (val : tftypes.Value) : bool :=
  match tftypes.As_Float val with
  | tftypes.Ok f => big.IsInt f
  | tftypes.Err _ => false
  end.

Definition accepted (val : tftypes.Value) : bool :=
  tftypes.Is val tftypes.String
  || (tftypes.Is val tftypes.Number && wholeNumber val)
  || tftypes.Is val bash.listOfString
  || tftypes.Is val bash.mapOfString.

(** A variable that passes both checks. *)
Definition passes (entry : string * tftypes.Value) : bool :=
  bash.validVariableName entry.1 && accepted entry.2.

(** The float of [p] bits that holds the integer [z]. *)
Definition integerFloat (p : N) (z : Z) : big.Float :=
  match z with
  | Z0 => big.Zero false
  | Zpos m => big.Finite false m 0 p
  | Zneg m => big.Finite true m 0 p
  end.

(** A number that its precision holds digit by digit. *)
Definition within (f : big.Float) : bool :=
  match f with
  | big.Finite _ m e p => big.whole m e <? 2 ^ p
  | _ => true
  end.

(** The sign and the digits of a whole number. *)
Definition minus (neg : bool) : string :=
  if neg then "-" else EmptyString.

Definition numeral (n : N) : string := NilZero.string_of_uint (N.to_uint n).

(** *** Requests of any shape *)

(** A request for the data source with the wire value [raw]. *)
Definition requestWith (raw : tfprotov5.DynamicValue) : bash.DataSourceRequest :=
  bash.mkRequest "bash_script" raw.

(** A configuration object with the attributes [obj], whatever they are. *)
Definition objectConfig (t : option tftypes.Type_)
  (obj : list (string * tftypes.Value)) : tfprotov5.DynamicValue :=
  tfprotov5.Encoded (tftypes.mkValue t (tftypes.vMap obj)).

(** The attribute [k] of a configuration object, as [obj[k]] reads it. *)
Definition attribute (obj : list (string * tftypes.Value)) (k : string)
  : tftypes.Value :=
  default tftypes.zero (mapGet obj k).

Definition invalidVariablesDiag : tfprotov5.Diagnostic :=
  bash.errorDiag "Invalid variables"
    ("The " +:+ String dquote ("variables" +:+ String dquote
       " argument must be an object with one attribute per variable you wish to declare for the Bash script."))
    (Some ["variables"]).

(** The four types a variable may have. *)
Definition supportedTypes : list tftypes.Type_ :=
  [tftypes.String; tftypes.Number; bash.listOfString; bash.mapOfString].

(** The type [variablesType] writes down for one variable. *)
Definition recordedType (v : tftypes.Value) : tftypes.Type_ :=
  if tftypes.Is v tftypes.String then tftypes.String
  else if tftypes.Is v tftypes.Number then tftypes.Number
  else if tftypes.Is v bash.listOfString then bash.listOfString
  else if tftypes.Is v bash.mapOfString then bash.mapOfString
  else tftypes.DynamicPseudoType.

(** The keys and values of a map, one after the other. *)
Definition flatEntries (m : list (string * string)) : list string :=
  m ≫= λ e, [e.1; e.2].

(** ** Tactics *)

Ltac N_bools :=
  repeat match goal with
  | H : (_ <? _) = true |- _ => apply N.ltb_lt in H
  | H : (_ <? _) = false |- _ => apply N.ltb_ge in H
  | H : (_ <=? _) = true |- _ => apply N.leb_le in H
  | H : (_ <=? _) = false |- _ => apply N.leb_gt in H
  | H : (_ =? _) = true |- _ => apply N.eqb_eq in H
  | H : (_ =? _) = false |- _ => apply N.eqb_neq in H
  | H : _ && _ = true |- _ => apply andb_true_iff in H as [? ?]
  | H : negb _ = false |- _ => apply negb_false_iff in H
  | H : negb _ = true |- _ => apply negb_true_iff in H
  end.

Ltac rune_consts :=
  change (bash.rune_of "_") with 95 in *;
  change (bash.rune_of "A") with 65 in *;
  change (bash.rune_of "Z") with 90 in *;
  change (bash.rune_of "a") with 97 in *;
  change (bash.rune_of "z") with 122 in *;
  change (bash.rune_of "0") with 48 in *;
  change (bash.rune_of "9") with 57 in *.

(** ** Properties of the quoting *)

#[local] Arguments String.append : simpl nomatch.

Lemma HasPrefix_empty (s : string) : strings.HasPrefix s EmptyString = true.
Proof. by destruct s. Qed.

Lemma ReplaceAll_single_quote (s : string) :
  strings.ReplaceAll s "'" "'\''" = escapeQuotes s.
Proof.
  unfold strings.ReplaceAll.
  induction s as [|c rest IH]; [done|].
  cbn [strings.replace_from strings.HasPrefix escapeQuotes].
  rewrite HasPrefix_empty. unfold squote.
  destruct (Ascii.eqb c "'"); cbn; by rewrite IH.
Qed.

Lemma word_quoted_escapeQuotes (s tail : string) :
  sh.word sh.Quoted (escapeQuotes s +:+ String squote tail)
  = (String.app s) <$> sh.word sh.Plain tail.
Proof.
  induction s as [|c rest IH]; cbn [escapeQuotes].
  - cbn. by destruct (sh.word sh.Plain tail).
  - destruct (Ascii.eqb c squote) eqn:Hc.
    + apply Ascii.eqb_eq in Hc as ->. cbn. cbn in IH. rewrite IH.
      by destruct (sh.word sh.Plain tail).
    + cbn. rewrite Hc. cbn in IH. rewrite IH.
      by destruct (sh.word sh.Plain tail).
Qed.

(** C1. For every string [s], [bashQuoteString s] is [s] with every single
    quote replaced by the four bytes quote, backslash, quote, quote, the
    whole put between single quotes; and reading that word back the way
    the shell reads single-quoted text gives exactly [s]. *)
Theorem bashQuoteString_round_trip (s : string) :
  bash.bashQuoteString s = "'" +:+ escapeQuotes s +:+ "'"
  ∧ sh.unquote (bash.bashQuoteString s) = Some s.
Proof.
  unfold bash.bashQuoteString. rewrite ReplaceAll_single_quote.
  split; [done|].
  unfold sh.unquote. cbn [String.app sh.word Ascii.eqb].
  change (sh.word sh.Quoted (escapeQuotes s +:+ String squote EmptyString)
          = Some s).
  rewrite word_quoted_escapeQuotes. cbn. f_equal.
  induction s as [|c rest IH]; [done|]. cbn. by rewrite IH.
Qed.

(** ** Properties of the encoder *)

Lemma append_assoc (a b c : string) : (a +:+ b) +:+ c = a +:+ (b +:+ c).
Proof. induction a as [|x a IH]; [done|]. cbn. by rewrite IH. Qed.

Lemma append_empty_r (a : string) : a +:+ EmptyString = a.
Proof. induction a as [|x a IH]; [done|]. cbn. by rewrite IH. Qed.

Lemma cat_app (l k : list string) : cat (l ++ k) = cat l +:+ cat k.
Proof.
  unfold cat. induction l as [|x l IH]; [done|].
  cbn. by rewrite IH, append_assoc.
Qed.

Lemma writeElements_succ (i : nat) (l : list tftypes.Value) (buf : string) :
  bash.writeElements (S i) l buf
  = buf +:+ cat ((λ ev, " " +:+ quoted ev) <$> l).
Proof.
  revert i buf. induction l as [|ev l IH]; intros i buf.
  - cbn. by rewrite append_empty_r.
  - cbn [bash.writeElements Nat.eqb negb fmap list_fmap cat foldr].
    rewrite IH. fold (quoted ev). by rewrite !append_assoc.
Qed.

Lemma writeElements_spaced (l : list tftypes.Value) (buf : string) :
  bash.writeElements 0 l buf = buf +:+ spaced (quoted <$> l).
Proof.
  destruct l as [|ev l].
  - cbn. by rewrite append_empty_r.
  - cbn [bash.writeElements Nat.eqb negb fmap list_fmap spaced].
    rewrite writeElements_succ. fold (quoted ev).
    rewrite append_assoc. do 3 f_equal.
    by rewrite <-list_fmap_compose.
Qed.

Lemma writeEntries_succ (i : nat) (m : list (string * tftypes.Value))
  (buf : string) :
  bash.writeEntries (S i) m buf
  = buf +:+ cat ((λ e, " " +:+ quotedEntry e) <$> m).
Proof.
  revert i buf. induction m as [|[ek ev] m IH]; intros i buf.
  - cbn. by rewrite append_empty_r.
  - cbn [bash.writeEntries Nat.eqb negb fmap list_fmap cat foldr].
    rewrite IH. unfold quotedEntry, quoted. cbn [fst snd].
    by rewrite !append_assoc.
Qed.

Lemma writeEntries_spaced (m : list (string * tftypes.Value)) (buf : string) :
  bash.writeEntries 0 m buf = buf +:+ spaced (quotedEntry <$> m).
Proof.
  destruct m as [|[ek ev] m].
  - cbn. by rewrite append_empty_r.
  - cbn [bash.writeEntries Nat.eqb negb fmap list_fmap spaced].
    rewrite writeEntries_succ. unfold quotedEntry at 2, quoted. cbn [fst snd].
    rewrite !append_assoc. do 4 f_equal.
    by rewrite <-list_fmap_compose.
Qed.

Section EncoderFacts.
Context `{!strconv.PrintTables} `{!big.Shortest}.
Implicit Types (vars : list (string * tftypes.Value)) (buf name : string).

Lemma writeDecl_buf vars buf name :
  bash.writeDecl vars buf name = buf +:+ declOf vars name.
Proof.
  unfold declOf, bash.writeDecl.
  repeat case_match;
    rewrite ?writeElements_spaced, ?writeEntries_spaced;
    cbn [String.append]; by rewrite ?append_assoc.
Qed.

Lemma foldl_writeDecl vars buf (names : list string) :
  foldl (bash.writeDecl vars) buf names
  = buf +:+ cat (declOf vars <$> names).
Proof.
  revert buf. induction names as [|name names IH]; intros buf.
  - cbn. by rewrite append_empty_r.
  - cbn [foldl fmap list_fmap]. rewrite IH, writeDecl_buf.
    by rewrite append_assoc.
Qed.

Lemma collect_names vars (acc : list string) :
  foldl (λ names '(name, _), names ++ [name]) acc vars = acc ++ vars.*1.
Proof.
  revert acc. induction vars as [|[name val] vars IH]; intros acc.
  - cbn. by rewrite app_nil_r.
  - cbn [foldl fmap list_fmap fst]. rewrite IH. by rewrite <-app_assoc.
Qed.

(** The encoder writes the lines of the names in sorted order. *)
Lemma variablesToBashDecls_lines vars :
  bash.variablesToBashDecls vars
  = cat (declOf vars <$> sort.Strings vars.*1).
Proof.
  unfold bash.variablesToBashDecls.
  destruct vars as [|e vars]; [done|].
  cbn [length Nat.eqb]. by rewrite collect_names, foldl_writeDecl.
Qed.

Lemma Strings_sorted (names : list string) :
  StronglySorted String.le (sort.Strings names).
Proof. apply (StronglySorted_merge_sort _). Qed.

Lemma Strings_Permutation (names : list string) :
  sort.Strings names ≡ₚ names.
Proof. apply merge_sort_Permutation. Qed.

Lemma Strings_unique (names sorted : list string) :
  StronglySorted String.le sorted → sorted ≡ₚ names →
  sort.Strings names = sorted.
Proof.
  intros Hs Hp. apply (StronglySorted_unique String.le).
  - apply Strings_sorted.
  - done.
  - by rewrite Strings_Permutation.
Qed.

Lemma mapGet_Some {V} (m : list (string * V)) (k : string) (v : V) :
  NoDup m.*1 → mapGet m k = Some v ↔ (k, v) ∈ m.
Proof.
  induction m as [|[k' v'] m IH]; intros Hnd.
  - cbn. split; [done|]. by intros ?%elem_of_nil.
  - apply NoDup_cons in Hnd as [Hk' Hnd]. cbn [mapGet].
    rewrite elem_of_cons. destruct (String.eqb_spec k' k) as [Hk|Hk].
    + subst k'. split; [intros [= ->]; by left|].
      intros [[= ->]|Hin]; [done|].
      destruct Hk'. apply list_elem_of_fmap. by exists (k, v).
    + rewrite IH by done. split; [by right|].
      intros [[= ? ?]|?]; [by subst|done].
Qed.

Lemma mapGet_Permutation {V} (m m' : list (string * V)) (k : string) :
  NoDup m.*1 → m ≡ₚ m' → mapGet m k = mapGet m' k.
Proof.
  intros Hnd Hp.
  assert (NoDup m'.*1) as Hnd' by (by rewrite <-Hp).
  destruct (mapGet m k) as [v|] eqn:Hm.
  - symmetry. apply mapGet_Some; [done|]. rewrite <-Hp.
    by apply mapGet_Some.
  - destruct (mapGet m' k) as [v|] eqn:Hm'; [|done].
    apply mapGet_Some in Hm'; [|done]. rewrite <-Hp in Hm'.
    apply mapGet_Some in Hm'; [|done]. congruence.
Qed.

Lemma declOf_Permutation vars vars' name :
  NoDup vars.*1 → vars ≡ₚ vars' → declOf vars name = declOf vars' name.
Proof.
  intros Hnd Hp. unfold declOf, bash.writeDecl.
  by rewrite (mapGet_Permutation vars vars' name).
Qed.

(** The order in which the outer map hands out its entries does not
    show in the text. *)
Lemma variablesToBashDecls_Permutation vars vars' :
  NoDup vars.*1 → vars ≡ₚ vars' →
  bash.variablesToBashDecls vars = bash.variablesToBashDecls vars'.
Proof.
  intros Hnd Hp. rewrite !variablesToBashDecls_lines.
  assert (sort.Strings vars'.*1 = sort.Strings vars.*1) as ->.
  { apply Strings_unique; [apply Strings_sorted|].
    by rewrite Strings_Permutation, Hp. }
  f_equal. apply list_fmap_ext. intros _ name _.
  by apply declOf_Permutation.
Qed.

End EncoderFacts.

Section Insertion.
Context `{!strconv.PrintTables} `{!big.Shortest}.
Implicit Types (vars : list (string * tftypes.Value)) (name : string).

Lemma sorted_insert name (sorted : list string) :
  StronglySorted String.le sorted →
  ∃ l1 l2, sorted = l1 ++ l2 ∧ StronglySorted String.le (l1 ++ name :: l2).
Proof.
  induction 1 as [|x sorted Hs IH Hx].
  - exists [], []. split; [done|]. repeat constructor.
  - destruct (total String.le name x) as [Hle|Hle].
    + exists [], (x :: sorted). split; [done|]. cbn.
      constructor; [by constructor|].
      constructor; [done|].
      eapply Forall_impl; [exact Hx|]. intros y Hy. by etrans.
    + destruct IH as (l1 & l2 & -> & Hsorted).
      exists (x :: l1), l2. split; [done|]. cbn.
      constructor; [done|].
      apply Forall_app in Hx as [Hx1 Hx2].
      apply Forall_app. split; [done|]. by constructor.
Qed.

Lemma Strings_insert name (names names' : list string) :
  names' ≡ₚ name :: names →
  ∃ l1 l2, sort.Strings names = l1 ++ l2
           ∧ sort.Strings names' = l1 ++ name :: l2.
Proof.
  intros Hp.
  destruct (sorted_insert name (sort.Strings names))
    as (l1 & l2 & Heq & Hsorted); [apply Strings_sorted|].
  exists l1, l2. split; [done|].
  apply Strings_unique; [done|].
  rewrite Hp, <-Permutation_middle, <-Heq.
  by rewrite Strings_Permutation.
Qed.

Lemma declOf_head name val vars :
  declOf ((name, val) :: vars) name = declOf [(name, val)] name.
Proof.
  unfold declOf, bash.writeDecl. cbn [mapGet].
  by rewrite String.eqb_refl.
Qed.

Lemma declOf_tail name val vars (other : string) :
  other ≠ name → declOf ((name, val) :: vars) other = declOf vars other.
Proof.
  intros Hne. unfold declOf, bash.writeDecl. cbn [mapGet].
  by rewrite (proj2 (String.eqb_neq name other)).
Qed.

(** Adding one variable adds its line at its place and leaves the other
    lines as they were. *)
Lemma variablesToBashDecls_insert name val vars vars' :
  NoDup vars'.*1 → vars' ≡ₚ (name, val) :: vars →
  ∃ pre post,
    bash.variablesToBashDecls vars'
    = pre +:+ declOf [(name, val)] name +:+ post
    ∧ bash.variablesToBashDecls vars = pre +:+ post.
Proof.
  intros Hnd Hp.
  assert (NoDup (name :: vars.*1)) as Hnd'.
  { change (NoDup (((name, val) :: vars).*1)). by rewrite <-Hp. }
  apply NoDup_cons in Hnd' as [Hfresh _].
  rewrite (variablesToBashDecls_Permutation vars' _ Hnd Hp).
  rewrite !variablesToBashDecls_lines. cbn [fmap list_fmap fst].
  destruct (Strings_insert name vars.*1 (name :: vars.*1))
    as (l1 & l2 & Hs & ->); [done|].
  assert (∀ l, l ⊆ l1 ++ l2 →
    declOf ((name, val) :: vars) <$> l = declOf vars <$> l) as Hsame.
  { intros l Hl. apply list_fmap_ext. intros i other Hother.
    apply declOf_tail. intros ->. apply Hfresh.
    rewrite <-(Strings_Permutation vars.*1), Hs.
    by eapply Hl, list_elem_of_lookup_2. }
  exists (cat (declOf vars <$> l1)), (cat (declOf vars <$> l2)).
  rewrite Hs, !fmap_app, !cat_app. split; [|done].
  rewrite fmap_cons. change (cat (?x :: ?l)) with (x +:+ cat l).
  rewrite declOf_head, !Hsame; [done|..].
  - intros x ?. apply elem_of_app. by right.
  - intros x ?. apply elem_of_app. by left.
Qed.

End Insertion.

(** ** Properties of the name check *)

Lemma lor_lt_pow2 (a b n : N) : N.lor a b < 2 ^ n → a < 2 ^ n ∧ b < 2 ^ n.
Proof.
  intros H.
  assert (N.shiftr (N.lor a b) n = 0) as H0.
  { rewrite N.shiftr_div_pow2. by apply N.div_small. }
  rewrite N.shiftr_lor in H0. apply N.lor_eq_0_iff in H0 as [Ha Hb].
  rewrite N.shiftr_div_pow2 in Ha, Hb.
  apply N.div_small_iff in Ha, Hb; [done|..]; by apply N.pow_nonzero.
Qed.

Ltac split_lor H :=
  repeat match type of H with
  | N.lor _ _ < 2 ^ 7 =>
    let H1 := fresh H in
    apply lor_lt_pow2 in H as [H1 H]; try split_lor H1
  end.

(** The part of a leading or continuation byte that goes into the rune. *)
Lemma land_low (b : N) (n : N) :
  ∃ q, b = 2 ^ n * q + N.land b (N.ones n) ∧ N.land b (N.ones n) < 2 ^ n.
Proof.
  rewrite N.land_ones. exists (b / 2 ^ n). split.
  - apply N.div_mod'.
  - apply N.mod_lt. by apply N.pow_nonzero.
Qed.

(** A byte that is not ASCII never starts a rune below U+0080. *)
Lemma DecodeRuneInString_high (c : ascii) (rest : string) :
  0x80 ≤ utf8.byte_of c →
  0x80 ≤ (utf8.DecodeRuneInString (String c rest)).1.
Proof.
  intros Hc. unfold utf8.DecodeRuneInString.
  set (s0 := utf8.byte_of c) in *.
  destruct (N.ltb_spec s0 utf8.RuneSelf) as [Hlt|_];
    [unfold utf8.RuneSelf in Hlt; lia|].
  destruct (utf8.first s0) as [[sz [lo hi]]|] eqn:Hfirst; [|done].
  destruct rest as [|c1 rest]; [done|].
  set (s1 := utf8.byte_of c1).
  destruct (N.ltb_spec s1 lo) as [|Hlo]; [done|].
  destruct (N.ltb_spec hi s1) as [|Hhi]; [done|]. cbn [orb].
  destruct (land_low s0 5) as (q5 & Hq5 & Hl5).
  destruct (land_low s0 4) as (q4 & Hq4 & Hl4).
  destruct (land_low s0 3) as (q3 & Hq3 & Hl3).
  destruct (land_low s1 6) as (q6 & Hq6 & Hl6).
  change (N.ones 5) with 0x1F in *. change (N.ones 4) with 0x0F in *.
  change (N.ones 3) with 0x07 in *. change (N.ones 6) with 0x3F in *.
  assert (∀ r : N, ¬ r < 2 ^ 7 → 0x80 ≤ r) as Hge by (intros r; lia).
  unfold utf8.first, utf8.locb, utf8.hicb in Hfirst.
  repeat case_match; simplify_eq; cbn [fst]; try done;
    unfold utf8.cont, utf8.locb, utf8.hicb in *; N_bools;
    apply Hge; intros Hr; split_lor Hr;
    unfold utf8.low6 in *; rewrite ?N.shiftl_mul_pow2 in *; lia.
Qed.

Lemma initial_subsequent (r : N) :
  bash.validVariableNameInitialCharacter r = true →
  bash.validVariableNameSubsequentCharacter r = true.
Proof. intros H. unfold bash.validVariableNameSubsequentCharacter. by rewrite H. Qed.

Lemma subsequent_ascii (r : N) :
  bash.validVariableNameSubsequentCharacter r = true → r < 0x80.
Proof.
  unfold bash.validVariableNameSubsequentCharacter,
    bash.validVariableNameInitialCharacter.
  rune_consts. intros H. repeat case_match; N_bools; try lia; done.
Qed.

Lemma subsequent_high (r : N) :
  0x80 ≤ r → bash.validVariableNameSubsequentCharacter r = false.
Proof.
  intros Hr. apply not_true_is_false. intros H%subsequent_ascii. lia.
Qed.

Lemma initial_high (r : N) :
  0x80 ≤ r → bash.validVariableNameInitialCharacter r = false.
Proof.
  intros Hr. apply not_true_is_false.
  intros H%initial_subsequent%subsequent_ascii. lia.
Qed.

Lemma DecodeRuneInString_ascii (c : ascii) (rest : string) :
  utf8.byte_of c < 0x80 →
  utf8.DecodeRuneInString (String c rest) = (utf8.byte_of c, 1%nat).
Proof.
  intros Hc. unfold utf8.DecodeRuneInString.
  by destruct (N.ltb_spec (utf8.byte_of c) utf8.RuneSelf);
    [|unfold utf8.RuneSelf in *; lia].
Qed.

Lemma validVariableName_loop_bytes (s : string) (i : nat) :
  i ≠ 0%nat →
  bash.validVariableName_loop (utf8.range_from 0 i s)
  = forallb subsequentByte (String.list_ascii_of_string s).
Proof.
  revert i. induction s as [|c rest IH]; intros i Hi; [done|].
  cbn [utf8.range_from String.list_ascii_of_string forallb].
  destruct (N.lt_ge_cases (utf8.byte_of c) 0x80) as [Hc|Hc].
  - rewrite DecodeRuneInString_ascii by done.
    cbn [bash.validVariableName_loop Nat.pred].
    rewrite (proj2 (Nat.eqb_neq i 0)) by done.
    rewrite IH by done. unfold subsequentByte, bash.rune_of, utf8.byte_of.
    by destruct (bash.validVariableNameSubsequentCharacter _).
  - pose proof (DecodeRuneInString_high c rest Hc) as Hr.
    destruct (utf8.DecodeRuneInString (String c rest)) as [r w].
    cbn [bash.validVariableName_loop fst] in *.
    rewrite (proj2 (Nat.eqb_neq i 0)) by done.
    unfold subsequentByte.
    rewrite (subsequent_high r), (subsequent_high (bash.rune_of c)); done.
Qed.

(** The name check in terms of the bytes of the name. *)
Lemma validVariableName_bytes (s : string) :
  bash.validVariableName s
  = match s with
    | EmptyString => false
    | String c rest =>
      initialByte c && forallb subsequentByte (String.list_ascii_of_string rest)
    end.
Proof.
  destruct s as [|c rest]; [done|].
  unfold bash.validVariableName, utf8.range.
  cbn [String.length Nat.eqb utf8.range_from].
  destruct (N.lt_ge_cases (utf8.byte_of c) 0x80) as [Hc|Hc].
  - rewrite DecodeRuneInString_ascii by done.
    cbn [bash.validVariableName_loop Nat.eqb Nat.pred].
    rewrite validVariableName_loop_bytes by done.
    unfold initialByte, bash.rune_of, utf8.byte_of.
    by destruct (bash.validVariableNameInitialCharacter _).
  - pose proof (DecodeRuneInString_high c rest Hc) as Hr.
    destruct (utf8.DecodeRuneInString (String c rest)) as [r w].
    cbn [bash.validVariableName_loop Nat.eqb fst] in *.
    unfold initialByte.
    rewrite (initial_high r), (initial_high (bash.rune_of c)); done.
Qed.

Lemma initialByte_spec (c : ascii) :
  initialByte c = bool_decide (c ∈ underscore :: letters).
Proof. destruct c as [[] [] [] [] [] [] [] []]; by vm_compute. Qed.

Lemma subsequentByte_spec (c : ascii) :
  subsequentByte c = bool_decide (c ∈ underscore :: letters ++ decimals).
Proof. destruct c as [[] [] [] [] [] [] [] []]; by vm_compute. Qed.

(** [validVariableName] accepts exactly the names of the form
    [A-Za-z_][A-Za-z0-9_]*. *)
Lemma validVariableName_identifier (s : string) :
  bash.validVariableName s = true ↔ identifier s.
Proof.
  rewrite validVariableName_bytes. split.
  - destruct s as [|c rest]; [done|].
    intros [Hc Hrest]%andb_true_iff. constructor.
    + rewrite initialByte_spec in Hc. by apply bool_decide_eq_true in Hc.
    + apply Forall_forall. intros d Hd.
      rewrite forallb_forall in Hrest.
      apply list_elem_of_In, Hrest in Hd.
      rewrite subsequentByte_spec in Hd. by apply bool_decide_eq_true in Hd.
  - intros [c rest Hc Hrest]. apply andb_true_iff. split.
    + rewrite initialByte_spec. by apply bool_decide_eq_true.
    + apply forallb_forall. intros d Hd%list_elem_of_In.
      rewrite Forall_forall in Hrest.
      rewrite subsequentByte_spec. by apply bool_decide_eq_true, Hrest.
Qed.

Section QuoteFacts.
Context `{!strconv.PrintTables} `{!big.Shortest}.

Lemma quote_from_ascii (c : ascii) (rest : string) :
  utf8.byte_of c < 0x80 →
  strconv.quote_from 0 (String c rest)
  = strconv.appendEscapedRune (utf8.byte_of c) +:+ strconv.quote_from 0 rest.
Proof.
  intros Hc. cbn [strconv.quote_from].
  destruct (N.ltb_spec (utf8.byte_of c) utf8.RuneSelf) as [_|Hge];
    [|unfold utf8.RuneSelf in Hge; lia].
  destruct (N.eqb_spec (utf8.byte_of c) utf8.RuneError) as [Heq|_];
    [unfold utf8.RuneError in Heq; lia|].
  by rewrite andb_false_r.
Qed.

Lemma appendEscapedRune_subsequentByte (c : ascii) :
  subsequentByte c = true →
  utf8.byte_of c < 0x80
  ∧ strconv.appendEscapedRune (utf8.byte_of c) = String c EmptyString.
Proof.
  destruct c as [[] [] [] [] [] [] [] []]; vm_compute;
    first [by intros [=] | done].
Qed.

Lemma quote_from_subsequentByte (c : ascii) (rest : string) :
  subsequentByte c = true →
  strconv.quote_from 0 (String c rest) = String c (strconv.quote_from 0 rest).
Proof.
  intros [Hc Hr]%appendEscapedRune_subsequentByte.
  by rewrite quote_from_ascii, Hr.
Qed.

Lemma quote_from_identifier (s : string) :
  forallb subsequentByte (String.list_ascii_of_string s) = true →
  strconv.quote_from 0 s = s +:+ String dquote EmptyString.
Proof.
  induction s as [|c rest IH]; [done|].
  cbn [String.list_ascii_of_string forallb].
  intros [Hc Hrest]%andb_true_iff.
  rewrite quote_from_subsequentByte by done. cbn. by rewrite IH.
Qed.

(** The verb [%q] puts a name that passed the name check between double
    quotes and changes nothing in it. *)
Lemma Quote_valid_name (name : string) :
  bash.validVariableName name = true →
  strconv.Quote name = String dquote (name +:+ String dquote EmptyString).
Proof.
  rewrite validVariableName_bytes. destruct name as [|c rest]; [done|].
  intros [Hc Hrest]%andb_true_iff. unfold strconv.Quote. f_equal.
  apply quote_from_identifier. cbn [String.list_ascii_of_string forallb].
  rewrite Hrest, andb_true_r. by apply initial_subsequent.
Qed.

End QuoteFacts.

(** ** Properties of the validator *)

Section ValidatorFacts.
Context `{!strconv.PrintTables} `{!tftypes.ErrorTexts} `{!big.Shortest}.
Implicit Types (vars : list (string * tftypes.Value)) (name : string).
Implicit Types (diags : list tfprotov5.Diagnostic).

Lemma validateVariable_app diags (entry : string * tftypes.Value) :
  bash.validateVariable diags entry = diags ++ bash.validateVariable [] entry.
Proof.
  destruct entry as [name val]. unfold bash.validateVariable.
  repeat case_match; by rewrite ?app_nil_r.
Qed.

Lemma validateVariable_length (entry : string * tftypes.Value) :
  (length (bash.validateVariable [] entry) ≤ 1)%nat.
Proof.
  destruct entry as [name val]. unfold bash.validateVariable.
  repeat case_match; cbn; lia.
Qed.

Lemma validateVariable_Attribute (entry : string * tftypes.Value)
  (d : tfprotov5.Diagnostic) :
  d ∈ bash.validateVariable [] entry →
  tfprotov5.Attribute d = Some ["variables"; entry.1]
  ∧ tfprotov5.Severity d = tfprotov5.DiagnosticSeverityError.
Proof.
  destruct entry as [name val]. unfold bash.validateVariable.
  repeat case_match; cbn [app]; intros Hd;
    first [by apply elem_of_nil in Hd
          | by apply list_elem_of_singleton in Hd as ->].
Qed.

Lemma foldl_validateVariable diags vars :
  foldl bash.validateVariable diags vars
  = diags ++ concat (bash.validateVariable [] <$> vars).
Proof.
  revert diags. induction vars as [|entry vars IH]; intros diags.
  - cbn. by rewrite app_nil_r.
  - cbn [foldl fmap list_fmap concat].
    by rewrite IH, validateVariable_app, <-app_assoc.
Qed.

(** Validation of a configuration that has the shape of the schema. *)
Lemma newBashScriptConfig_configOf (source : string) vars :
  bash.newBashScriptConfig (configOf source vars)
  = bash.Returned (bash.mkConfig source vars,
                   concat (bash.validateVariable [] <$> vars)).
Proof.
  unfold bash.newBashScriptConfig, configOf.
  cbn -[foldl bash.validateVariable].
  by rewrite foldl_validateVariable.
Qed.

Lemma filter_all {A} (P : A → Prop) `{!∀ x, Decision (P x)} (l : list A) :
  Forall P l → filter P l = l.
Proof.
  induction 1 as [|x l Hx Hl IH]; [done|].
  by rewrite filter_cons_True, IH.
Qed.

Lemma filter_none {A} (P : A → Prop) `{!∀ x, Decision (P x)} (l : list A) :
  Forall (λ x, ¬ P x) l → filter P l = [].
Proof.
  induction 1 as [|x l Hx Hl IH]; [done|].
  by rewrite filter_cons_False, IH.
Qed.

Lemma diagnosticsFor_other name (entry : string * tftypes.Value) :
  entry.1 ≠ name → diagnosticsFor name (bash.validateVariable [] entry) = [].
Proof.
  intros Hne. apply filter_none, Forall_forall.
  intros d [Hd _]%validateVariable_Attribute. rewrite Hd.
  intros [= ?]. by apply Hne.
Qed.

Lemma diagnosticsFor_same (entry : string * tftypes.Value) :
  diagnosticsFor entry.1 (bash.validateVariable [] entry)
  = bash.validateVariable [] entry.
Proof.
  apply filter_all, Forall_forall.
  by intros d [Hd _]%validateVariable_Attribute.
Qed.

Lemma diagnosticsFor_app name diags diags' :
  diagnosticsFor name (diags ++ diags')
  = diagnosticsFor name diags ++ diagnosticsFor name diags'.
Proof. apply filter_app. Qed.

Lemma diagnosticsFor_absent name vars :
  name ∉ vars.*1 →
  diagnosticsFor name (concat (bash.validateVariable [] <$> vars)) = [].
Proof.
  induction vars as [|entry vars IH]; [done|].
  cbn [fmap list_fmap concat]. intros [Hne Hname]%not_elem_of_cons.
  rewrite diagnosticsFor_app, IH by done.
  by rewrite diagnosticsFor_other.
Qed.

(** The diagnostics that point at a variable are those of its own turn
    in the loop. *)
Lemma diagnosticsFor_entry name (val : tftypes.Value) vars :
  NoDup vars.*1 → (name, val) ∈ vars →
  diagnosticsFor name (concat (bash.validateVariable [] <$> vars))
  = bash.validateVariable [] (name, val).
Proof.
  induction vars as [|entry vars IH]; intros Hnd Hin.
  { by apply elem_of_nil in Hin. }
  cbn [fmap list_fmap concat] in *.
  apply NoDup_cons in Hnd as [Hfresh Hnd].
  rewrite diagnosticsFor_app.
  apply elem_of_cons in Hin as [<-|Hin].
  - pose proof (diagnosticsFor_same (name, val)) as Hsame.
    cbn [fst] in *. by rewrite Hsame, diagnosticsFor_absent, app_nil_r.
  - rewrite IH by done. rewrite diagnosticsFor_other; [done|].
    intros Heq. apply Hfresh. rewrite Heq.
    apply list_elem_of_fmap. by exists (name, val).
Qed.

Lemma diagnosticsFor_length name vars :
  NoDup vars.*1 →
  (length (diagnosticsFor name
             (concat (bash.validateVariable [] <$> vars))) ≤ 1)%nat.
Proof.
  intros Hnd. destruct (decide (name ∈ vars.*1)) as [Hin|Hout].
  - apply list_elem_of_fmap in Hin as ([name' val] & -> & Hin).
    rewrite (diagnosticsFor_entry _ val) by done.
    apply validateVariable_length.
  - rewrite diagnosticsFor_absent by done. cbn. lia.
Qed.

End ValidatorFacts.

(** ** Numbers and their text *)

Lemma string_of_uint_decimals (d : Decimal.uint) :
  Forall (λ c, c ∈ decimals)
    (String.list_ascii_of_string (NilEmpty.string_of_uint d)).
Proof.
  induction d; cbn [NilEmpty.string_of_uint String.list_ascii_of_string];
    try (by apply Forall_nil_2);
    (apply Forall_cons_2; [apply (bool_decide_unpack _); by vm_compute|done]).
Qed.

Lemma numeral_decimals (n : N) :
  Forall (λ c, c ∈ decimals) (String.list_ascii_of_string (numeral n)).
Proof.
  unfold numeral. destruct (N.to_uint n); try apply string_of_uint_decimals.
  apply Forall_cons_2; [|by apply Forall_nil_2].
  apply (bool_decide_unpack _). by vm_compute.
Qed.

Section NumberFacts.
Context `{!big.Shortest}.

Lemma Text_settled (neg : bool) (m : positive) (e : Z) (p : N) :
  big.settled m e p = true →
  big.Text (big.Finite neg m e p) = minus neg +:+ big.expansion m e.
Proof. intros Hs. unfold big.Text. by rewrite Hs. Qed.

(** A whole number below [2^prec] prints as its digits. *)
Lemma Text_whole (neg : bool) (m : positive) (e : Z) (p : N) :
  big.integral m e = true → big.whole m e < 2 ^ p →
  big.Text (big.Finite neg m e p) = minus neg +:+ numeral (big.whole m e).
Proof.
  intros Hi Hlt%N.ltb_lt. rewrite Text_settled.
  - unfold big.expansion. by rewrite Hi.
  - unfold big.settled. rewrite Hi, Hlt. apply orb_true_r.
Qed.



Lemma Text_digits (f : big.Float) :
  big.IsInt f = true → within f = true →
  Forall (λ c, c ∈ "-"%char :: decimals)
    (String.list_ascii_of_string (big.Text f)).
Proof.
  assert (∀ neg n,
            Forall (λ c, c ∈ "-"%char :: decimals)
              (String.list_ascii_of_string (minus neg +:+ numeral n))) as Hd.
  { intros neg n.
    assert (Forall (λ c, c ∈ "-"%char :: decimals)
              (String.list_ascii_of_string (numeral n))) as Hn.
    { eapply Forall_impl; [apply numeral_decimals|]. intros c Hc. by right. }
    destruct neg; [|done]. apply Forall_cons_2; [by left|done]. }
  destruct f as [neg|neg m e p|neg]; [..|done].
  - intros _ _. apply (Hd neg 0).
  - cbn [big.IsInt within]. intros Hi Hlt%N.ltb_lt.
    rewrite Text_whole by done. apply Hd.
Qed.

Lemma IsInt_integerFloat (p : N) (z : Z) :
  big.IsInt (integerFloat p z) = true.
Proof. by destruct z. Qed.



Lemma Text_three_and_a_half (p : N) :
  7 ≤ p → big.Text (big.Finite false 7 (-1) p) = "3.5".
Proof.
  intros Hp. rewrite Text_settled; [by vm_compute|].
  unfold big.settled. apply orb_true_iff. left. apply N.leb_le.
  replace (big.significant 7 (-1)) with 2 by (by vm_compute).
  trans (2 ^ 7); [by vm_compute|]. by apply N.pow_le_mono_r.
Qed.

End NumberFacts.

Section ValidatorClaims.
Context `{!strconv.PrintTables} `{!tftypes.ErrorTexts} `{!big.Shortest}.
Implicit Types (vars : list (string * tftypes.Value)) (name : string).
Implicit Types (diags : list tfprotov5.Diagnostic).

Lemma validateVariable_valid_name name (val : tftypes.Value) diags :
  bash.validVariableName name = true →
  bash.validateVariable diags (name, val)
  = if tftypes.Is val tftypes.String then diags
    else if tftypes.Is val tftypes.Number then
      match tftypes.As_Float val with
      | tftypes.Err err =>
        diags ++ [bash.errorDiag "Invalid variable value"
                    ("Failed to decode " +:+ strconv.Quote name
                       +:+ " as a number: " +:+ tftypes.Error err +:+ ".")
                    (Some ["variables"; name])]
      | tftypes.Ok f =>
        if big.IsInt f then diags else diags ++ [fractionalDiag name f]
      end
    else if tftypes.Is val bash.listOfString then diags
    else if tftypes.Is val bash.mapOfString then diags
    else diags ++ [unsupportedDiag name].
Proof.
  intros Hname. unfold bash.validateVariable. rewrite Hname.
  destruct name as [|c rest]; [done|]. cbn [String.length Nat.eqb negb].
  repeat case_match; done.
Qed.

Lemma validateVariable_invalid_name name (val : tftypes.Value) diags :
  name ≠ EmptyString → bash.validVariableName name = false →
  bash.validateVariable diags (name, val)
  = diags ++ [bash.errorDiag "Invalid variable name"
                ("Cannot use " +:+ strconv.Quote name
                   +:+ " as a Bash variable name.")
                (Some ["variables"; name])].
Proof.
  intros Hne Hname. unfold bash.validateVariable. rewrite Hname.
  by destruct name as [|c rest].
Qed.

Lemma Type_Is_String (t : tftypes.Type_) :
  tftypes.Type_Is t tftypes.String = true ↔ t = tftypes.String.
Proof. by destruct t. Qed.

Lemma Is_listOfString (e : tftypes.Type_) (p : tftypes.Payload) :
  tftypes.Is (tftypes.NewValue (tftypes.List e) p) bash.listOfString
  = tftypes.Type_Is e tftypes.String.
Proof. done. Qed.

Lemma Is_mapOfString (e : tftypes.Type_) (p : tftypes.Payload) :
  tftypes.Is (tftypes.NewValue (tftypes.Map e) p) bash.mapOfString
  = tftypes.Type_Is e tftypes.String.
Proof. done. Qed.

(** The whole request: what the two handlers answer for a configuration
    that has the shape of the schema. *)
Lemma ValidateDataSourceConfig_configOf (source : string) vars :
  bash.ValidateDataSourceConfig (requestOf source vars)
  = bash.Returned (tftypes.Ok (bash.mkValidateResponse
      (concat (bash.validateVariable [] <$> vars)))).
Proof.
  unfold bash.ValidateDataSourceConfig, requestOf.
  cbn [bash.TypeName bash.Config]. by rewrite newBashScriptConfig_configOf.
Qed.

Lemma ReadDataSource_rejected (source : string) vars :
  concat (bash.validateVariable [] <$> vars) ≠ [] →
  bash.ReadDataSource (requestOf source vars)
  = bash.Returned (tftypes.Ok (bash.mkReadResponse None
      (concat (bash.validateVariable [] <$> vars)))).
Proof.
  intros Hdiags. unfold bash.ReadDataSource, requestOf.
  cbn [bash.TypeName bash.Config]. rewrite newBashScriptConfig_configOf.
  cbn [bool_decide decide_rel negb].
  by destruct (concat (bash.validateVariable [] <$> vars)).
Qed.

Lemma ReadDataSource_accepted (source : string) vars :
  concat (bash.validateVariable [] <$> vars) = [] →
  bash.ReadDataSource (requestOf source vars)
  = bash.Returned (tftypes.Ok (bash.mkReadResponse
      (Some (tfprotov5.Encoded
         (bash.ResultObject (bash.mkConfig source vars)
            (bash.variablesToBashDecls vars))))
      [])).
Proof.
  intros Hdiags. unfold bash.ReadDataSource, requestOf.
  cbn [bash.TypeName bash.Config]. rewrite newBashScriptConfig_configOf.
  by rewrite Hdiags.
Qed.

(** The diagnostics of a validation that point at one variable of the
    request are the ones its turn in the loop adds. *)
Lemma validation_of_entry (source : string) vars name (val : tftypes.Value) :
  NoDup vars.*1 → (name, val) ∈ vars →
  ∃ diags,
    bash.ValidateDataSourceConfig (requestOf source vars)
    = bash.Returned (tftypes.Ok (bash.mkValidateResponse diags))
    ∧ diagnosticsFor name diags = bash.validateVariable [] (name, val).
Proof.
  intros Hnd Hin. exists (concat (bash.validateVariable [] <$> vars)).
  split; [apply ValidateDataSourceConfig_configOf|].
  by apply diagnosticsFor_entry.
Qed.

(** C5. The validator reports the empty name with the diagnostic for the
    empty string, and a name that is not of the form
    [A-Za-z_][A-Za-z0-9_]* with a diagnostic that quotes the name; a name
    of that form gets no name diagnostic.  The names _ok and a1 pass; the
    empty name and 1abc get one name diagnostic each. *)
Theorem validator_name_diagnostics (val : tftypes.Value) diags :
  bash.validateVariable diags (EmptyString, val)
  = diags ++ [bash.errorDiag "Invalid variable name"
                "The empty string is not a valid Bash variable name."
                (Some ["variables"; EmptyString])]
  ∧ (∀ name, name ≠ EmptyString → ¬ identifier name →
       bash.validateVariable diags (name, val)
       = diags ++ [bash.errorDiag "Invalid variable name"
                     ("Cannot use " +:+ strconv.Quote name
                        +:+ " as a Bash variable name.")
                     (Some ["variables"; name])])
  ∧ (∀ name d, identifier name →
       d ∈ bash.validateVariable [] (name, val) →
       tfprotov5.Summary d = "Invalid variable value")
  ∧ (∀ source vars name,
       NoDup vars.*1 → (name, val) ∈ vars → ¬ identifier name →
       ∃ diags d,
         bash.ValidateDataSourceConfig (requestOf source vars)
         = bash.Returned (tftypes.Ok (bash.mkValidateResponse diags))
         ∧ diagnosticsFor name diags = [d]
         ∧ tfprotov5.Severity d = tfprotov5.DiagnosticSeverityError
         ∧ tfprotov5.Summary d = "Invalid variable name")
  ∧ (∀ source,
       bash.ValidateDataSourceConfig
         (requestOf source [("_ok", stringValue "x"); ("a1", stringValue "y")])
       = bash.Returned (tftypes.Ok (bash.mkValidateResponse [])))
  ∧ (∀ source,
       bash.ValidateDataSourceConfig
         (requestOf source [(EmptyString, val); ("1abc", val)])
       = bash.Returned (tftypes.Ok (bash.mkValidateResponse [
           bash.errorDiag "Invalid variable name"
             "The empty string is not a valid Bash variable name."
             (Some ["variables"; EmptyString]);
           bash.errorDiag "Invalid variable name"
             ("Cannot use " +:+ String dquote ("1abc" +:+ String dquote
                " as a Bash variable name."))
             (Some ["variables"; "1abc"])]))).
Proof.
  split; [done|]. split; [|split; [|split; [|split]]].
  - intros name Hne Hid. apply validateVariable_invalid_name; [done|].
    apply not_true_is_false. by rewrite validVariableName_identifier.
  - intros name d Hid%validVariableName_identifier.
    rewrite validateVariable_valid_name by done.
    repeat case_match; cbn [app]; intros Hd;
      first [by apply elem_of_nil in Hd
            | by apply list_elem_of_singleton in Hd as ->].
  - intros source vars name Hnd Hin Hid.
    destruct (validation_of_entry source vars name val Hnd Hin)
      as (found & Hfound & Hfor).
    exists found. destruct name as [|c rest].
    + exists (bash.errorDiag "Invalid variable name"
                "The empty string is not a valid Bash variable name."
                (Some ["variables"; EmptyString])).
      by rewrite Hfor.
    + exists (bash.errorDiag "Invalid variable name"
                ("Cannot use " +:+ strconv.Quote (String c rest)
                   +:+ " as a Bash variable name.")
                (Some ["variables"; String c rest])).
      rewrite Hfor, validateVariable_invalid_name; [done..|].
      apply not_true_is_false. by rewrite validVariableName_identifier.
  - intros source. unfold bash.ValidateDataSourceConfig, requestOf.
    cbn [bash.TypeName bash.Config]. rewrite !newBashScriptConfig_configOf.
    cbn [fmap list_fmap concat].
    by rewrite !validateVariable_valid_name by done.
  - intros source. unfold bash.ValidateDataSourceConfig, requestOf.
    cbn [bash.TypeName bash.Config]. rewrite !newBashScriptConfig_configOf.
    cbn [fmap list_fmap concat].
    rewrite (validateVariable_invalid_name "1abc") by done.
    done.
Qed.

(** A name that fails the name check gets the name diagnostic, and the
    value plays no part in it. *)
Lemma validateVariable_bad_name name :
  bash.validVariableName name = false →
  ∃ d,
    tfprotov5.Summary d = "Invalid variable name"
    ∧ ∀ (val : tftypes.Value) diags,
        bash.validateVariable diags (name, val) = diags ++ [d].
Proof.
  intros Hname. destruct name as [|c rest].
  - eexists. split; [|intros val diags; reflexivity]. done.
  - eexists. split;
      [|intros val diags; by apply validateVariable_invalid_name]. done.
Qed.

(** A request with a variable that gets a diagnostic is turned down. *)
Lemma rejected_for_entry (source : string) vars name (val : tftypes.Value)
  (d : tfprotov5.Diagnostic) :
  NoDup vars.*1 → (name, val) ∈ vars →
  bash.validateVariable [] (name, val) = [d] →
  ∃ diags,
    bash.ValidateDataSourceConfig (requestOf source vars)
    = bash.Returned (tftypes.Ok (bash.mkValidateResponse diags))
    ∧ bash.ReadDataSource (requestOf source vars)
      = bash.Returned (tftypes.Ok (bash.mkReadResponse None diags))
    ∧ diagnosticsFor name diags = [d]
    ∧ tfprotov5.Severity d = tfprotov5.DiagnosticSeverityError.
Proof.
  intros Hnd Hin Hone.
  exists (concat (bash.validateVariable [] <$> vars)).
  pose proof (diagnosticsFor_entry name val vars Hnd Hin) as Hfor.
  rewrite Hone in Hfor.
  split; [apply ValidateDataSourceConfig_configOf|]. split; [|split; [done|]].
  - apply ReadDataSource_rejected. intros Hnil. by rewrite Hnil in Hfor.
  - apply (validateVariable_Attribute (name, val)).
    rewrite Hone. apply list_elem_of_here.
Qed.

Lemma Quote_inQuotes name :
  bash.validVariableName name = true → strconv.Quote name = inQuotes name.
Proof. apply Quote_valid_name. Qed.

Lemma validateVariable_fractional name (f : big.Float) diags :
  bash.validVariableName name = true → big.IsInt f = false →
  bash.validateVariable diags (name, numberValue f)
  = diags ++ [fractionalReport name f].
Proof.
  intros Hname Hf. rewrite validateVariable_valid_name by done.
  cbn. rewrite Hf. unfold fractionalDiag, fractionalReport.
  by rewrite Quote_inQuotes.
Qed.

Lemma validateVariable_unsupported name (val : tftypes.Value) diags :
  bash.validVariableName name = true → unsupported val →
  bash.validateVariable diags (name, val) = diags ++ [unsupportedReport name].
Proof.
  intros Hname (Hs & Hn & Hl & Hm).
  rewrite validateVariable_valid_name by done. rewrite Hs, Hn, Hl, Hm.
  unfold unsupportedDiag, unsupportedReport. by rewrite Quote_inQuotes.
Qed.

(** C6. In a request whose variables have distinct names, a variable
    whose value is a number with a fractional part gets exactly one
    diagnostic; it is an error and points at the variable, validation
    returns it and reading returns no state.  When the name passes the name
    check, the text of the diagnostic holds the decimal text of the number
    and the name between double quotes (a name that fails the check is
    reported for that alone).  A number that is an integer adds no
    diagnostic.  Three and a half is no integer and its decimal text is 3.5
    at any precision that holds it; an infinity is no integer and a zero
    is one; for the float64 next to one tenth the text is the digits the
    library settles on. *)
Theorem validator_fractional_number :
  (∀ source name f vars,
     big.IsInt f = false →
     NoDup vars.*1 → (name, numberValue f) ∈ vars →
     ∃ diags d,
       bash.ValidateDataSourceConfig (requestOf source vars)
       = bash.Returned (tftypes.Ok (bash.mkValidateResponse diags))
       ∧ bash.ReadDataSource (requestOf source vars)
         = bash.Returned (tftypes.Ok (bash.mkReadResponse None diags))
       ∧ diagnosticsFor name diags = [d]
       ∧ tfprotov5.Severity d = tfprotov5.DiagnosticSeverityError
       ∧ (bash.validVariableName name = true →
          d = bash.errorDiag "Invalid variable value"
                ("Can't use " +:+ big.Text f +:+ " as value of "
                   +:+ inQuotes name
                   +:+ ": Bash doesn't support floating-point numbers.")
                (Some ["variables"; name])))
  ∧ (∀ name f diags,
       bash.validVariableName name = true → big.IsInt f = true →
       bash.validateVariable diags (name, numberValue f) = diags)
  ∧ (∀ p, 7 ≤ p →
       big.IsInt (big.Finite false 7 (-1) p) = false
       ∧ big.Text (big.Finite false 7 (-1) p) = "3.5")
  ∧ (∀ neg, big.IsInt (big.Inf neg) = false ∧ big.IsInt (big.Zero neg) = true)
  ∧ big.Text (big.Finite false 3602879701896397 (-55) 53)
    = big.shortest 3602879701896397 (-55) 53.
Proof.
  split; [|split; [|split; [|split]]].
  - intros source name f vars Hf Hnd Hin.
    destruct (bash.validVariableName name) eqn:Hname.
    + destruct (rejected_for_entry source vars name _ (fractionalReport name f)
                  Hnd Hin) as (diags & Hv & Hr & Hfor & Hsev).
      { by apply (validateVariable_fractional name f []). }
      by exists diags, (fractionalReport name f).
    + destruct (validateVariable_bad_name name Hname) as (d & _ & Hd).
      destruct (rejected_for_entry source vars name _ d Hnd Hin)
        as (diags & Hv & Hr & Hfor & Hsev); [apply (Hd _ [])|].
      by exists diags, d.
  - intros name f diags Hname Hf.
    rewrite validateVariable_valid_name by done. cbn. by rewrite Hf.
  - intros p Hp. split; [done|by apply Text_three_and_a_half].
  - done.
  - unfold big.Text.
    by replace (big.settled 3602879701896397 (-55) 53) with false
      by (by vm_compute).
Qed.

Lemma unsupported_types (ty : tftypes.Type_) (p : tftypes.Payload) :
  unsupported (tftypes.NewValue ty p) ↔ ty ∉ supportedTypes.
Proof.
  unfold unsupported, supportedTypes, tftypes.Is. cbn [tftypes.typ tftypes.NewValue].
  rewrite !not_elem_of_cons. split.
  - intros (Hs & Hn & Hl & Hm).
    repeat split; try (intros ->; done). apply not_elem_of_nil.
  - intros (Hs & Hn & Hl & Hm & _).
    destruct ty as [| | | |e|e|e|ts|ts]; try done.
    + repeat split; try done. unfold bash.listOfString in *.
      destruct e; try done.
    + repeat split; try done. unfold bash.mapOfString in *.
      destruct e; try done.
Qed.

(** C7, amended.  For a variable whose name passes the name check: a value
    of a list type passes exactly when the type is list of string, a value
    of a map type passes exactly when the type is map of string, and a
    value whose type is none of string, number, list of string and map of
    string gets one diagnostic, the same whatever the value is, that names
    the variable.  In a request whose variables have distinct names such a
    variable, under any name, has exactly one diagnostic pointing at it, an
    error, and it is that one when the name passes the name check.  A list
    of numbers, a list of lists, a tuple of a string and a number, an
    object, a boolean and a null of no known type are such values.  The
    check looks at the type alone: a null passes when its type is one of
    the four, and gets the diagnostic when it is not. *)
Theorem validator_value_types :
  (∀ name e p diags,
     bash.validVariableName name = true →
     (bash.validateVariable diags (name, tftypes.NewValue (tftypes.List e) p)
      = diags ↔ e = tftypes.String)
     ∧ (bash.validateVariable diags (name, tftypes.NewValue (tftypes.Map e) p)
        = diags ↔ e = tftypes.String))
  ∧ (∀ e p, e ≠ tftypes.String →
       unsupported (tftypes.NewValue (tftypes.List e) p)
       ∧ unsupported (tftypes.NewValue (tftypes.Map e) p))
  ∧ (∀ name val diags,
       bash.validVariableName name = true → unsupported val →
       bash.validateVariable diags (name, val)
       = diags ++ [bash.errorDiag "Invalid variable value"
                     ("Invalid value for Bash variable " +:+ inQuotes name
                        +:+ ": Bash only supports strings, whole numbers, lists of strings, and maps of strings.")
                     (Some ["variables"; name])])
  ∧ (∀ source vars name val,
       NoDup vars.*1 → (name, val) ∈ vars → unsupported val →
       ∃ diags d,
         bash.ValidateDataSourceConfig (requestOf source vars)
         = bash.Returned (tftypes.Ok (bash.mkValidateResponse diags))
         ∧ diagnosticsFor name diags = [d]
         ∧ tfprotov5.Severity d = tfprotov5.DiagnosticSeverityError
         ∧ (bash.validVariableName name = true → d = unsupportedReport name))
  ∧ Forall unsupported [
      tftypes.NewValue (tftypes.List tftypes.Number)
        (tftypes.vSlice [numberValue (integerFloat 53 1)]);
      tftypes.NewValue (tftypes.List bash.listOfString)
        (tftypes.vSlice [listValue ["a"]]);
      tftypes.NewValue (tftypes.Tuple [tftypes.String; tftypes.Number])
        (tftypes.vSlice [stringValue "a"; numberValue (integerFloat 53 1)]);
      tftypes.NewValue (tftypes.Object [("a", tftypes.String)])
        (tftypes.vMap [("a", stringValue "x")]);
      tftypes.NewValue tftypes.Bool (tftypes.vBool true);
      tftypes.NewValue tftypes.DynamicPseudoType tftypes.vNil]
  ∧ (∀ name ty diags,
       bash.validVariableName name = true →
       (ty ∈ supportedTypes →
        bash.validateVariable diags (name, tftypes.NewValue ty tftypes.vNil)
        = diags)
       ∧ (ty ∉ supportedTypes →
          bash.validateVariable diags (name, tftypes.NewValue ty tftypes.vNil)
          = diags ++ [unsupportedReport name])).
Proof.
  assert (∀ e p, e ≠ tftypes.String →
            unsupported (tftypes.NewValue (tftypes.List e) p)
            ∧ unsupported (tftypes.NewValue (tftypes.Map e) p)) as Hshape.
  { intros e p He. split; repeat split; try done.
    - rewrite Is_listOfString. apply not_true_is_false.
      by rewrite Type_Is_String.
    - rewrite Is_mapOfString. apply not_true_is_false.
      by rewrite Type_Is_String. }
  assert (∀ (l : list tfprotov5.Diagnostic) d, l ++ [d] ≠ l) as Hgrow.
  { intros l d Heq. apply (f_equal length) in Heq.
    rewrite length_app in Heq. cbn in Heq. lia. }
  split; [|split; [done|split; [|split; [|split]]]].
  - intros name e p diags Hname. split; split.
    + intros Hpass. destruct (tftypes.Type_Is e tftypes.String) eqn:He;
        [by apply Type_Is_String|].
      assert (e ≠ tftypes.String) as Hne by (intros ->; discriminate He).
      rewrite validateVariable_unsupported in Hpass
        by (done || apply (Hshape e p Hne)).
      by apply Hgrow in Hpass.
    + intros ->. by rewrite validateVariable_valid_name.
    + intros Hpass. destruct (tftypes.Type_Is e tftypes.String) eqn:He;
        [by apply Type_Is_String|].
      assert (e ≠ tftypes.String) as Hne by (intros ->; discriminate He).
      rewrite validateVariable_unsupported in Hpass
        by (done || apply (Hshape e p Hne)).
      by apply Hgrow in Hpass.
    + intros ->. by rewrite validateVariable_valid_name.
  - intros name val diags. apply validateVariable_unsupported.
  - intros source vars name val Hnd Hin Hval.
    destruct (bash.validVariableName name) eqn:Hname.
    + destruct (rejected_for_entry source vars name val
                  (unsupportedReport name) Hnd Hin)
        as (diags & Hv & _ & Hfor & Hsev).
      { by apply (validateVariable_unsupported name val []). }
      by exists diags, (unsupportedReport name).
    + destruct (validateVariable_bad_name name Hname) as (d & _ & Hd).
      destruct (rejected_for_entry source vars name val d Hnd Hin)
        as (diags & Hv & _ & Hfor & Hsev); [apply (Hd _ [])|].
      by exists diags, d.
  - repeat constructor.
  - intros name ty diags Hname. split.
    + unfold supportedTypes. rewrite !elem_of_cons, elem_of_nil.
      intros [->|[->|[->|[->|[]]]]]; by rewrite validateVariable_valid_name.
    + intros Hty%(unsupported_types ty tftypes.vNil).
      by apply validateVariable_unsupported.
Qed.

Lemma Is_Number_only (val : tftypes.Value) :
  tftypes.Is val tftypes.Number = true →
  tftypes.Is val tftypes.String = false
  ∧ tftypes.Is val bash.listOfString = false
  ∧ tftypes.Is val bash.mapOfString = false.
Proof. destruct val as [[ty|] p]; [|done]. by destruct ty. Qed.

Lemma validateVariable_accepted name (val : tftypes.Value) diags :
  bash.validVariableName name = true → accepted val = true →
  bash.validateVariable diags (name, val) = diags.
Proof.
  intros Hname Hval. rewrite validateVariable_valid_name by done.
  unfold accepted, wholeNumber in Hval.
  destruct (tftypes.Is val tftypes.String); [done|].
  destruct (tftypes.Is val tftypes.Number) eqn:Hn.
  - destruct (Is_Number_only val Hn) as (_ & Hl & Hm).
    rewrite Hl, Hm in Hval.
    destruct (tftypes.As_Float val) as [f|err]; [|done].
    by destruct (big.IsInt f).
  - destruct (tftypes.Is val bash.listOfString); [done|].
    by destruct (tftypes.Is val bash.mapOfString).
Qed.

Lemma validateVariable_refused name (val : tftypes.Value) diags :
  bash.validVariableName name = true → accepted val = false →
  ∃ d,
    bash.validateVariable diags (name, val) = diags ++ [d]
    ∧ tfprotov5.Summary d = "Invalid variable value".
Proof.
  intros Hname Hval. rewrite validateVariable_valid_name by done.
  unfold accepted, wholeNumber in Hval.
  destruct (tftypes.Is val tftypes.String); [done|].
  destruct (tftypes.Is val tftypes.Number).
  - destruct (tftypes.As_Float val) as [f|err]; [|by eexists].
    destruct (big.IsInt f); [done|by eexists].
  - destruct (tftypes.Is val bash.listOfString); [done|].
    destruct (tftypes.Is val bash.mapOfString); [done|by eexists].
Qed.

(** One turn of the loop adds nothing for a variable that passes both
    checks and one diagnostic for any other. *)
Lemma validateVariable_count (entry : string * tftypes.Value) :
  length (bash.validateVariable [] entry) = if passes entry then 0%nat else 1%nat.
Proof.
  destruct entry as [name val]. unfold passes. cbn [fst snd].
  destruct (bash.validVariableName name) eqn:Hname.
  - destruct (accepted val) eqn:Hval; cbn [andb].
    + by rewrite validateVariable_accepted.
    + by destruct (validateVariable_refused name val [] Hname Hval)
        as (d & -> & _).
  - destruct (validateVariable_bad_name name Hname) as (d & _ & Hd).
    by rewrite Hd.
Qed.

Lemma concat_validate_count vars :
  length (concat (bash.validateVariable [] <$> vars))
  = length (filter (λ entry, passes entry = false) vars).
Proof.
  induction vars as [|entry vars IH]; [done|].
  cbn [fmap list_fmap concat]. rewrite length_app, IH, validateVariable_count.
  rewrite filter_cons. destruct (passes entry); by case_decide.
Qed.

(** C10. One turn of the validation loop keeps the diagnostics it is
    given and adds exactly one, an error that points at the variable of
    that turn, when the variable fails the name check or the value check,
    and none when it passes both.  For a name that fails the name check the
    one added is the name diagnostic whatever the value is, so no value
    diagnostic comes with it.  For a name that passes, a value that fails
    the value check adds exactly one value diagnostic.  A whole validation
    returns as many diagnostics as there are variables that fail a check,
    and with distinct names exactly one of them points at each such
    variable and none at any other. *)
Theorem validator_one_diagnostic_per_variable :
  (∀ diags (entry : string * tftypes.Value),
     ∃ new,
       bash.validateVariable diags entry = diags ++ new
       ∧ length new = (if passes entry then 0 else 1)%nat
       ∧ ∀ d, d ∈ new →
           tfprotov5.Attribute d = Some ["variables"; entry.1]
           ∧ tfprotov5.Severity d = tfprotov5.DiagnosticSeverityError)
  ∧ (∀ diags name (val : tftypes.Value),
       bash.validVariableName name = false →
       ∃ d,
         tfprotov5.Summary d = "Invalid variable name"
         ∧ ∀ val' : tftypes.Value,
             bash.validateVariable diags (name, val') = diags ++ [d])
  ∧ (∀ diags name (val : tftypes.Value),
       bash.validVariableName name = true → accepted val = false →
       ∃ d,
         bash.validateVariable diags (name, val) = diags ++ [d]
         ∧ tfprotov5.Summary d = "Invalid variable value")
  ∧ (∀ diags name (val : tftypes.Value),
       bash.validVariableName name = true → accepted val = true →
       bash.validateVariable diags (name, val) = diags)
  ∧ (∀ source vars,
       ∃ diags,
         bash.newBashScriptConfig (configOf source vars)
         = bash.Returned (bash.mkConfig source vars, diags)
         ∧ length diags = length (filter (λ entry, passes entry = false) vars)
         ∧ (NoDup vars.*1 →
            ∀ entry, entry ∈ vars →
              length (diagnosticsFor entry.1 diags)
              = (if passes entry then 0 else 1)%nat)).
Proof.
  split; [|split; [|split; [|split]]].
  - intros diags entry. exists (bash.validateVariable [] entry).
    split; [apply validateVariable_app|].
    split; [apply validateVariable_count|].
    intros d Hd. by apply validateVariable_Attribute in Hd.
  - intros diags name _ Hname.
    destruct (validateVariable_bad_name name Hname) as (d & Hd & Hall).
    exists d. split; [done|]. intros val'. apply Hall.
  - intros diags name val. apply validateVariable_refused.
  - intros diags name val. apply validateVariable_accepted.
  - intros source vars.
    exists (concat (bash.validateVariable [] <$> vars)).
    split; [apply newBashScriptConfig_configOf|].
    split; [apply concat_validate_count|].
    intros Hnd [name val] Hin. cbn [fst].
    rewrite (diagnosticsFor_entry name val vars Hnd Hin).
    apply validateVariable_count.
Qed.

End ValidatorClaims.

(** ** The encoder, one shape of value at a time *)

(** Appends brought to one shape: nested to the right, literals unfolded. *)
Ltac string_norm :=
  repeat first [rewrite append_assoc | progress cbn [String.append]].

Section EncoderClaims.
Context `{!strconv.PrintTables} `{!big.Shortest}.
Implicit Types (vars : list (string * tftypes.Value)) (name : string).

Lemma variablesToBashDecls_single name (val : tftypes.Value) :
  bash.variablesToBashDecls [(name, val)] = declOf [(name, val)] name.
Proof.
  rewrite variablesToBashDecls_lines. cbn [fmap list_fmap fst].
  change (sort.Strings [name]) with [name]. cbn [fmap list_fmap cat foldr].
  by rewrite append_empty_r.
Qed.

Lemma declOf_unsupported name (val : tftypes.Value) :
  unsupported val →
  declOf [(name, val)] name
  = "# ERROR: Don't know how to serialize " +:+ strconv.Quote name
      +:+ " for bash" +:+ nl.
Proof.
  intros (Hs & Hn & Hl & Hm). unfold declOf, bash.writeDecl.
  cbn [mapGet]. rewrite String.eqb_refl.
  change (default tftypes.zero (Some val)) with val.
  by rewrite Hs, Hn, Hl, Hm.
Qed.


(** C9. A variable whose value is of none of the four types does not stop
    the encoder: its line is a comment that starts with # ERROR and holds
    the quoted name, and all the other lines are what they are without
    that variable, before and after it.  A name that passes the name check
    stands in the comment unchanged between double quotes. *)
Theorem encoder_unsupported_marker name (val : tftypes.Value) vars vars' :
  unsupported val → NoDup vars'.*1 → vars' ≡ₚ (name, val) :: vars →
  (∃ pre post,
     bash.variablesToBashDecls vars'
     = pre +:+ ("# ERROR: Don't know how to serialize "
                  +:+ strconv.Quote name +:+ " for bash" +:+ nl) +:+ post
     ∧ bash.variablesToBashDecls vars = pre +:+ post)
  ∧ (bash.validVariableName name = true →
     strconv.Quote name = String dquote (name +:+ String dquote EmptyString)).
Proof.
  intros Hval Hnd Hp. split; [|apply Quote_valid_name].
  destruct (variablesToBashDecls_insert name val vars vars' Hnd Hp)
    as (pre & post & Hwith & Hwithout).
  exists pre, post. split; [|done].
  by rewrite Hwith, declOf_unsupported.
Qed.

(** C3, as the code has it.  The entries of a map of strings are written
    in the order in which the loop over the map meets them, and nothing
    sorts them: the same map met in two orders gives two texts. *)
Theorem map_entries_follow_iteration_order :
  (∀ name (m : list (string * string)),
     bash.variablesToBashDecls [(name, mapValue m)]
     = "declare -rA " +:+ name +:+ "=("
         +:+ spaced ((λ e, bash.bashQuoteString e.1 +:+ " "
                             +:+ bash.bashQuoteString e.2) <$> m)
         +:+ ")" +:+ nl)
  ∧ [("a", "i-123"); ("b", "i-456")] ≡ₚ [("b", "i-456"); ("a", "i-123")]
  ∧ bash.variablesToBashDecls
      [("ids", mapValue [("a", "i-123"); ("b", "i-456")])]
    = "declare -rA ids=('a' 'i-123' 'b' 'i-456')" +:+ nl
  ∧ bash.variablesToBashDecls
      [("ids", mapValue [("b", "i-456"); ("a", "i-123")])]
    = "declare -rA ids=('b' 'i-456' 'a' 'i-123')" +:+ nl
  ∧ bash.variablesToBashDecls
      [("ids", mapValue [("a", "i-123"); ("b", "i-456")])]
    ≠ bash.variablesToBashDecls
        [("ids", mapValue [("b", "i-456"); ("a", "i-123")])].
Proof.
  split; [|split; [|split; [|split]]].
  - intros name m. rewrite variablesToBashDecls_single.
    unfold declOf, bash.writeDecl. cbn [mapGet]. rewrite String.eqb_refl.
    cbn -[bash.writeEntries]. rewrite writeEntries_spaced.
    rewrite <-list_fmap_compose.
    cbn. by string_norm.
  - apply Permutation_swap.
  - by vm_compute.
  - by vm_compute.
  - by vm_compute.
Qed.

End EncoderClaims.

(** ** The result of the data source *)

Section ProviderClaims.
Context `{!strconv.PrintTables} `{!tftypes.ErrorTexts} `{!big.Shortest}.
Implicit Types (vars : list (string * tftypes.Value)) (source : string).

(** When validation has nothing to report, the result attribute of the
    state is the text of the declarations and nothing else. *)
Lemma ReadDataSource_result source vars :
  concat (bash.validateVariable [] <$> vars) = [] →
  ∃ state,
    bash.ReadDataSource (requestOf source vars)
    = bash.Returned (tftypes.Ok (bash.mkReadResponse (Some state) []))
    ∧ resultOf state = Some (bash.variablesToBashDecls vars).
Proof.
  intros Hdiags. eexists. split; [by apply ReadDataSource_accepted|done].
Qed.

(** C2, as the code has it.  For a body that starts with an interpreter
    line and one string variable, and for a body without such a line, the
    result is the declaration alone: the body is in neither, where the
    merge puts the declaration after the interpreter line, or before the
    whole body. *)
Theorem result_leaves_out_the_body :
  let decls := "declare -r greeting='Hello'" +:+ nl in
  let vars := [("greeting", stringValue "Hello")] in
  let script := "#!/bin/bash" +:+ nl +:+ "echo ${greeting}" +:+ nl in
  let plain := "echo ${greeting}" +:+ nl in
  bash.ReadDataSource (requestOf script vars)
  = bash.Returned (tftypes.Ok (bash.mkReadResponse
      (Some (tfprotov5.Encoded
         (bash.ResultObject (bash.mkConfig script vars) decls))) []))
  ∧ resultOf (tfprotov5.Encoded
      (bash.ResultObject (bash.mkConfig script vars) decls)) = Some decls
  ∧ mergedScript decls script
    = "#!/bin/bash" +:+ nl +:+ decls +:+ "echo ${greeting}" +:+ nl
  ∧ decls ≠ mergedScript decls script
  ∧ bash.ReadDataSource (requestOf plain vars)
    = bash.Returned (tftypes.Ok (bash.mkReadResponse
        (Some (tfprotov5.Encoded
           (bash.ResultObject (bash.mkConfig plain vars) decls))) []))
  ∧ mergedScript decls plain = decls +:+ plain
  ∧ decls ≠ mergedScript decls plain.
Proof. repeat split; by vm_compute. Qed.

(** C8, as the code has it.  Without variables the encoder gives the empty
    text, and the result is that empty text whatever the body is; for a
    body of one command the merge would be the body. *)
Theorem empty_variables_give_empty_result :
  bash.variablesToBashDecls [] = EmptyString
  ∧ (∀ source,
       bash.ReadDataSource (requestOf source [])
       = bash.Returned (tftypes.Ok (bash.mkReadResponse
           (Some (tfprotov5.Encoded
              (bash.ResultObject (bash.mkConfig source []) EmptyString)))
           []))
       ∧ resultOf (tfprotov5.Encoded
           (bash.ResultObject (bash.mkConfig source []) EmptyString))
         = Some EmptyString)
  ∧ mergedScript EmptyString ("echo hi" +:+ nl) = "echo hi" +:+ nl
  ∧ EmptyString ≠ mergedScript EmptyString ("echo hi" +:+ nl).
Proof.
  split; [done|]. split; [|by split].
  intros source. split; [|done].
  by rewrite ReadDataSource_accepted.
Qed.

End ProviderClaims.

(** ** The theorems at work on concrete requests *)

Lemma validator_name_diagnostics_witness :
  "1abc" ≠ EmptyString ∧ ¬ identifier "1abc" ∧ identifier "_ok"
  ∧ @bash.validateVariable noWideRunes plainErrors unrounded []
      ("1abc", stringValue "x")
    = [bash.errorDiag "Invalid variable name"
         ("Cannot use " +:+ String dquote ("1abc" +:+ String dquote
            " as a Bash variable name."))
         (Some ["variables"; "1abc"])]
  ∧ ∀ d, d ∈ @bash.validateVariable noWideRunes plainErrors unrounded []
               ("_ok", stringValue "x") →
         tfprotov5.Summary d = "Invalid variable value".
Proof.
  assert ("1abc" ≠ EmptyString) as Hne by done.
  assert (¬ identifier "1abc") as Hbad.
  { rewrite <-validVariableName_identifier. by vm_compute. }
  assert (identifier "_ok") as Hgood.
  { apply validVariableName_identifier. by vm_compute. }
  destruct (@validator_name_diagnostics noWideRunes plainErrors unrounded
              (stringValue "x") []) as (_ & Hinvalid & Hvalid & _ & _).
  split; [done|]. split; [done|]. split; [done|]. split.
  - exact (Hinvalid "1abc" Hne Hbad).
  - intros d. exact (Hvalid "_ok" d Hgood).
Defined.

Lemma validator_fractional_number_witness :
  let f := big.Finite false 7 (-1) 53 in
  let vars := [("greeting", stringValue "Hello"); ("ratio", numberValue f)] in
  big.IsInt f = false ∧ NoDup vars.*1 ∧ ("ratio", numberValue f) ∈ vars
  ∧ bash.validVariableName "ratio" = true
  ∧ (∃ diags,
       @bash.ValidateDataSourceConfig noWideRunes plainErrors unrounded
         (requestOf "echo" vars)
       = bash.Returned (tftypes.Ok (bash.mkValidateResponse diags))
       ∧ @bash.ReadDataSource noWideRunes plainErrors unrounded
           (requestOf "echo" vars)
         = bash.Returned (tftypes.Ok (bash.mkReadResponse None diags))
       ∧ diagnosticsFor "ratio" diags
         = [bash.errorDiag "Invalid variable value"
              ("Can't use 3.5 as value of " +:+ String dquote ("ratio"
                 +:+ String dquote
                       ": Bash doesn't support floating-point numbers."))
              (Some ["variables"; "ratio"])])
  ∧ big.IsInt (integerFloat 53 3) = true
  ∧ @bash.validateVariable noWideRunes plainErrors unrounded []
      ("count", numberValue (integerFloat 53 3)) = []
  ∧ 7 ≤ 53
  ∧ @big.Text unrounded f = "3.5".
Proof.
  intros f vars.
  assert (big.IsInt f = false) as Hf by done.
  assert (NoDup vars.*1) as Hnd by (apply (bool_decide_unpack _); by vm_compute).
  assert (("ratio", numberValue f) ∈ vars) as Hin
    by (apply list_elem_of_further, list_elem_of_here).
  assert (bash.validVariableName "ratio" = true) as Hname by done.
  assert (big.IsInt (integerFloat 53 3) = true) as Hthree by done.
  assert (7 ≤ 53) as Hprec by lia.
  destruct (@validator_fractional_number noWideRunes plainErrors unrounded)
    as (Hfrac & Hint & Hhalf & _).
  destruct (Hfrac "echo" "ratio" f vars Hf Hnd Hin)
    as (diags & d & Hv & Hr & Hfor & _ & Hd).
  split; [done|]. split; [done|]. split; [done|]. split; [done|]. split.
  - exists diags. rewrite (Hd Hname) in Hfor. by repeat split.
  - split; [done|]. split; [by apply (Hint "count" (integerFloat 53 3) [])|].
    split; [done|]. exact (proj2 (Hhalf 53 Hprec)).
Defined.

Lemma validator_value_types_witness :
  let flag := tftypes.NewValue tftypes.Bool (tftypes.vBool true) in
  let ports := tftypes.NewValue (tftypes.List tftypes.Number)
                 (tftypes.vSlice [numberValue (integerFloat 53 1)]) in
  let vars := [("flag", flag); ("ports", ports)] in
  bash.validVariableName "flag" = true ∧ unsupported flag
  ∧ tftypes.Number ≠ tftypes.String ∧ NoDup vars.*1 ∧ ("ports", ports) ∈ vars
  ∧ @bash.validateVariable noWideRunes plainErrors unrounded [] ("flag", flag)
    = [bash.errorDiag "Invalid variable value"
         ("Invalid value for Bash variable "
            +:+ String dquote ("flag" +:+ String dquote
                  ": Bash only supports strings, whole numbers, lists of strings, and maps of strings."))
         (Some ["variables"; "flag"])]
  ∧ unsupported ports
  ∧ (∃ diags d,
       @bash.ValidateDataSourceConfig noWideRunes plainErrors unrounded
         (requestOf "echo" vars)
       = bash.Returned (tftypes.Ok (bash.mkValidateResponse diags))
       ∧ diagnosticsFor "ports" diags = [d]
       ∧ tfprotov5.Severity d = tfprotov5.DiagnosticSeverityError)
  ∧ (@bash.validateVariable noWideRunes plainErrors unrounded []
       ("flag", tftypes.NewValue (tftypes.List tftypes.String) tftypes.vNil)
     = [] ↔ tftypes.String = tftypes.String)
  ∧ tftypes.Number ∈ supportedTypes
  ∧ @bash.validateVariable noWideRunes plainErrors unrounded []
      ("flag", tftypes.NewValue tftypes.Number tftypes.vNil) = []
  ∧ (tftypes.Bool ∉ supportedTypes)
  ∧ @bash.validateVariable noWideRunes plainErrors unrounded []
      ("flag", tftypes.NewValue tftypes.Bool tftypes.vNil)
    = [unsupportedReport "flag"].
Proof.
  intros flag ports vars.
  assert (bash.validVariableName "flag" = true) as Hname by done.
  assert (unsupported flag) as Hflag by (by repeat split).
  assert (tftypes.Number ≠ tftypes.String) as Hne by done.
  assert (NoDup vars.*1) as Hnd by (apply (bool_decide_unpack _); by vm_compute).
  assert (("ports", ports) ∈ vars) as Hin
    by (apply list_elem_of_further, list_elem_of_here).
  assert (tftypes.Number ∈ supportedTypes) as Hnumber
    by (apply list_elem_of_further, list_elem_of_here).
  assert (tftypes.Bool ∉ supportedTypes) as Hbool.
  { unfold supportedTypes. rewrite !not_elem_of_cons.
    repeat split; try done. apply not_elem_of_nil. }
  destruct (@validator_value_types noWideRunes plainErrors unrounded)
    as (Hpass & Hshape & Hother & Hwhole & _ & Hnull).
  pose proof (proj1 (Hshape tftypes.Number
    (tftypes.vSlice [numberValue (integerFloat 53 1)]) Hne)) as Hports.
  destruct (Hwhole "echo" vars "ports" ports Hnd Hin Hports)
    as (diags & d & Hv & Hfor & Hsev & _).
  split; [done|]. split; [done|]. split; [done|]. split; [done|].
  split; [done|]. split; [exact (Hother "flag" flag [] Hname Hflag)|].
  split; [done|]. split; [by exists diags, d|]. split.
  - exact (proj1 (Hpass "flag" tftypes.String tftypes.vNil [] Hname)).
  - split; [done|]. split.
    + exact (proj1 (Hnull "flag" tftypes.Number [] Hname) Hnumber).
    + split; [done|].
      exact (proj2 (Hnull "flag" tftypes.Bool [] Hname) Hbool).
Defined.

(** C7, as the claim has it, fails for a null of type string: the value
    is null, the name passes the name check, and validation has nothing
    to report, where the claim has one diagnostic. *)
Lemma null_of_a_supported_type_passes :
  let val := tftypes.NewValue tftypes.String tftypes.vNil in
  tftypes.IsNull val = true
  ∧ bash.validVariableName "greeting" = true
  ∧ @bash.validateVariable noWideRunes plainErrors unrounded []
      ("greeting", val) = []
  ∧ @bash.validateVariable noWideRunes plainErrors unrounded []
      ("greeting", val) ≠ [unsupportedReport "greeting"]
  ∧ @bash.ValidateDataSourceConfig noWideRunes plainErrors unrounded
      (requestOf "echo" [("greeting", val)])
    = bash.Returned (tftypes.Ok (bash.mkValidateResponse []))
  ∧ @bash.variablesToBashDecls noWideRunes unrounded [("greeting", val)]
    = "declare -r greeting=''" +:+ nl.
Proof. repeat split; by vm_compute. Qed.

Lemma validator_one_diagnostic_per_variable_witness :
  let flag := tftypes.NewValue tftypes.Bool (tftypes.vBool true) in
  let vars := [("1abc", numberValue (big.Finite false 7 (-1) 53));
               ("flag", flag); ("ok", stringValue "x")] in
  bash.validVariableName "1abc" = false ∧ NoDup vars.*1
  ∧ bash.validVariableName "flag" = true ∧ accepted flag = false
  ∧ accepted (stringValue "x") = true ∧ ("flag", flag) ∈ vars
  ∧ (∃ d, tfprotov5.Summary d = "Invalid variable name"
          ∧ ∀ val', @bash.validateVariable noWideRunes plainErrors unrounded []
                      ("1abc", val') = [d])
  ∧ (∃ d, @bash.validateVariable noWideRunes plainErrors unrounded []
            ("flag", flag) = [d]
          ∧ tfprotov5.Summary d = "Invalid variable value")
  ∧ @bash.validateVariable noWideRunes plainErrors unrounded []
      ("flag", stringValue "x") = []
  ∧ (∃ diags,
       @bash.newBashScriptConfig noWideRunes plainErrors unrounded
         (configOf "echo" vars)
       = bash.Returned (bash.mkConfig "echo" vars, diags)
       ∧ length diags = 2%nat
       ∧ length (diagnosticsFor "flag" diags) = 1%nat).
Proof.
  intros flag vars.
  assert (bash.validVariableName "1abc" = false) as Hname by done.
  assert (NoDup vars.*1) as Hnd by (apply (bool_decide_unpack _); by vm_compute).
  assert (bash.validVariableName "flag" = true) as Hflag by done.
  assert (accepted flag = false) as Hbad by done.
  assert (accepted (stringValue "x") = true) as Hgood by done.
  assert (("flag", flag) ∈ vars) as Hin
    by (apply list_elem_of_further, list_elem_of_here).
  destruct (@validator_one_diagnostic_per_variable noWideRunes plainErrors
              unrounded) as (_ & Hinvalid & Hrefused & Haccepted & Hwhole).
  destruct (Hwhole "echo" vars) as (diags & Hdiags & Hcount & Heach).
  split; [done|]. split; [done|]. split; [done|]. split; [done|].
  split; [done|]. split; [done|]. split.
  - exact (Hinvalid [] "1abc" (stringValue "x") Hname).
  - split; [exact (Hrefused [] "flag" flag Hflag Hbad)|].
    split; [exact (Haccepted [] "flag" (stringValue "x") Hflag Hgood)|].
    exists diags. split; [done|]. split; [exact Hcount|].
    exact (Heach Hnd ("flag", flag) Hin).
Defined.


Lemma encoder_unsupported_marker_witness :
  let flag := tftypes.NewValue tftypes.Bool (tftypes.vBool true) in
  let vars := [("a", stringValue "x"); ("z", stringValue "y")] in
  let vars' := [("a", stringValue "x"); ("flag", flag); ("z", stringValue "y")] in
  unsupported flag ∧ NoDup vars'.*1 ∧ vars' ≡ₚ ("flag", flag) :: vars
  ∧ bash.validVariableName "flag" = true
  ∧ (∃ pre post,
       @bash.variablesToBashDecls noWideRunes unrounded vars'
       = pre +:+ ("# ERROR: Don't know how to serialize "
                    +:+ @strconv.Quote noWideRunes "flag" +:+ " for bash" +:+ nl)
             +:+ post
       ∧ @bash.variablesToBashDecls noWideRunes unrounded vars = pre +:+ post)
  ∧ @strconv.Quote noWideRunes "flag"
    = String dquote ("flag" +:+ String dquote EmptyString).
Proof.
  intros flag vars vars'.
  assert (unsupported flag) as Hflag by (by repeat split).
  assert (NoDup vars'.*1) as Hnd
    by (apply (bool_decide_unpack _); by vm_compute).
  assert (vars' ≡ₚ ("flag", flag) :: vars) as Hp by apply Permutation_swap.
  assert (bash.validVariableName "flag" = true) as Hname by done.
  destruct (@encoder_unsupported_marker noWideRunes unrounded "flag" flag vars vars'
              Hflag Hnd Hp) as [Hlines Hquote].
  split; [done|]. split; [done|]. split; [done|]. split; [done|]. split.
  - exact Hlines.
  - exact (Hquote Hname).
Defined.

(** ** The decoder on requests of any shape *)

Section DecoderFacts.
Context `{!strconv.PrintTables} `{!tftypes.ErrorTexts} `{!big.Shortest}.
Implicit Types (vars obj : list (string * tftypes.Value)) (name : string).
Implicit Types (diags : list tfprotov5.Diagnostic).

Lemma newBashScriptConfig_object (t : option tftypes.Type_) obj :
  bash.newBashScriptConfig (objectConfig t obj)
  = match tftypes.As_string (attribute obj "source") with
    | tftypes.Err _ => bash.Panicked "source isn't a string"
    | tftypes.Ok source =>
      match tftypes.As_map (attribute obj "variables") with
      | tftypes.Err _ =>
        bash.Returned (bash.mkConfig source [], [invalidVariablesDiag])
      | tftypes.Ok vars =>
        bash.Returned (bash.mkConfig source vars,
                       concat (bash.validateVariable [] <$> vars))
      end
    end.
Proof.
  unfold bash.newBashScriptConfig, objectConfig, attribute.
  cbn [tfprotov5.Unmarshal tftypes.As_map tftypes.value].
  destruct (tftypes.As_string _) as [source|e]; [|done].
  destruct (tftypes.As_map _) as [vars|e]; cbn [bash.Variables bash.Source];
    [|done].
  by rewrite foldl_validateVariable.
Qed.

(** The three ways in which the decoder returns. *)
Lemma newBashScriptConfig_returns (raw : tfprotov5.DynamicValue)
  (cfg : bash.bashScriptConfig) diags :
  bash.newBashScriptConfig raw = bash.Returned (cfg, diags) →
  (cfg = bash.mkConfig EmptyString []
   ∧ ∃ err, diags = [bash.schemaMismatch err])
  ∨ (bash.Variables cfg = [] ∧ diags = [invalidVariablesDiag])
  ∨ diags = concat (bash.validateVariable [] <$> bash.Variables cfg).
Proof.
  unfold bash.newBashScriptConfig.
  destruct (tfprotov5.Unmarshal raw bash.bashScriptType) as [lessRaw|err].
  2: { intros [= <- <-]. left. eauto. }
  destruct (tftypes.As_map lessRaw) as [obj|err].
  2: { intros [= <- <-]. left. eauto. }
  destruct (tftypes.As_string _) as [source|e]; [|done].
  destruct (tftypes.As_map _) as [vars|e]; cbn [bash.Variables bash.Source].
  - rewrite foldl_validateVariable. intros [= <- <-]. by right; right.
  - intros [= <- <-]. right. by left.
Qed.

Lemma concat_validate_nil vars name (val : tftypes.Value) :
  concat (bash.validateVariable [] <$> vars) = [] →
  (name, val) ∈ vars → bash.validateVariable [] (name, val) = [].
Proof.
  induction vars as [|entry vars IH]; intros Hnil Hin.
  { by apply elem_of_nil in Hin. }
  cbn [fmap list_fmap concat] in Hnil.
  apply app_eq_nil in Hnil as [Hentry Hrest].
  apply elem_of_cons in Hin as [->|Hin]; [done|by apply IH].
Qed.

Lemma elem_of_concat {A} (x : A) (ls : list (list A)) :
  x ∈ concat ls ↔ ∃ l, x ∈ l ∧ l ∈ ls.
Proof.
  induction ls as [|l' ls IH]; cbn [concat].
  - split; [by intros ?%elem_of_nil|by intros (l & _ & ?%elem_of_nil)].
  - rewrite elem_of_app, IH. split.
    + intros [Hx|(l & Hx & Hl)].
      * exists l'. split; [done|apply list_elem_of_here].
      * exists l. split; [done|by apply list_elem_of_further].
    + intros (l & Hx & [->|Hl]%elem_of_cons); [by left|].
      right. by exists l.
Qed.

Lemma mapGet_elem_of {V} (m : list (string * V)) (k : string) (v : V) :
  mapGet m k = Some v → (k, v) ∈ m.
Proof.
  induction m as [|[k' v'] m IH]; [done|]. cbn [mapGet].
  destruct (String.eqb_spec k' k) as [->|_].
  - intros [= ->]. apply list_elem_of_here.
  - intros Hm. by apply list_elem_of_further, IH.
Qed.

Lemma mapGet_is_Some {V} (m : list (string * V)) (k : string) :
  k ∈ m.*1 → is_Some (mapGet m k).
Proof.
  induction m as [|[k' v'] m IH]; [by intros ?%elem_of_nil|].
  cbn [fmap list_fmap fst mapGet]. intros Hk.
  destruct (String.eqb_spec k' k) as [->|Hne]; [by eexists|].
  apply elem_of_cons in Hk as [->|Hk]; [done|by apply IH].
Qed.

Lemma concat_fmap_Permutation {A B} (f : A → list B) (l l' : list A) :
  l ≡ₚ l' → concat (f <$> l) ≡ₚ concat (f <$> l').
Proof.
  induction 1 as [|x l l' _ IH|x y l|l l' l'' _ IH _ IH'].
  - done.
  - cbn [fmap list_fmap concat]. by rewrite IH.
  - cbn [fmap list_fmap concat].
    by rewrite !app_assoc, (Permutation_app_comm (f y) (f x)).
  - by etrans.
Qed.

(** X1. The two handlers go the same way.  For another type name both
    answer the same error.  When validation panics, reading panics with
    the same message.  When reading returns, it returns a state exactly
    when it returns no diagnostic, and validation returns the same
    diagnostics up to their order.  For a configuration of the shape of
    the schema, whatever the order in which each of the two calls meets
    the variables, validation and reading return the same diagnostics up
    to their order, and reading returns a state exactly when there is
    none. *)
Theorem handlers_agree :
  (∀ req,
     bash.TypeName req ≠ "bash_script" →
     bash.ValidateDataSourceConfig req
     = bash.Returned (tftypes.Err (tftypes.errorString
         ("unsupported data resource type " +:+ bash.TypeName req)))
     ∧ bash.ReadDataSource req
       = bash.Returned (tftypes.Err (tftypes.errorString
           ("unsupported data resource type " +:+ bash.TypeName req))))
  ∧ (∀ req msg,
       bash.ValidateDataSourceConfig req = bash.Panicked msg →
       bash.ReadDataSource req = bash.Panicked msg)
  ∧ (∀ req state diags,
       bash.ReadDataSource req
       = bash.Returned (tftypes.Ok (bash.mkReadResponse state diags)) →
       (state = None ↔ diags ≠ [])
       ∧ ∃ found,
           bash.ValidateDataSourceConfig req
           = bash.Returned (tftypes.Ok (bash.mkValidateResponse found))
           ∧ found ≡ₚ diags)
  ∧ (∀ (source : string) vars vars',
       vars ≡ₚ vars' →
       ∃ diags diags' state,
         bash.ValidateDataSourceConfig (requestOf source vars)
         = bash.Returned (tftypes.Ok (bash.mkValidateResponse diags))
         ∧ bash.ReadDataSource (requestOf source vars')
           = bash.Returned (tftypes.Ok (bash.mkReadResponse state diags'))
         ∧ diags ≡ₚ diags'
         ∧ (state = None ↔ diags ≠ [])).
Proof.
  split; [|split; [|split]].
  - intros req Hty.
    unfold bash.ValidateDataSourceConfig, bash.ReadDataSource.
    by rewrite (bool_decide_eq_false_2 _ Hty).
  - intros req msg.
    unfold bash.ValidateDataSourceConfig, bash.ReadDataSource.
    destruct (bool_decide (bash.TypeName req = "bash_script"));
      cbn [negb]; [|done].
    destruct (bash.newBashScriptConfig (bash.Config req))
      as [[cfg diags]|msg']; [done|]. by intros [= ->].
  - intros req state diags.
    unfold bash.ValidateDataSourceConfig, bash.ReadDataSource.
    destruct (bool_decide (bash.TypeName req = "bash_script"));
      cbn [negb]; [|done].
    destruct (bash.newBashScriptConfig (bash.Config req))
      as [[cfg [|d found]]|msg]; cbn [length Nat.eqb negb];
      unfold bash.ResultDynamicValue; cbn [tfprotov5.NewDynamicValue];
      [| |done].
    + intros [= <- <-]. split; [by split|]. by exists [].
    + intros [= <- <-]. split; [by split|]. by exists (d :: found).
  - intros source vars vars' Hp.
    pose proof (concat_fmap_Permutation (bash.validateVariable []) _ _ Hp)
      as Hdiags.
    exists (concat (bash.validateVariable [] <$> vars)),
           (concat (bash.validateVariable [] <$> vars')).
    destruct (concat (bash.validateVariable [] <$> vars')) as [|d found]
      eqn:Hfound.
    + exists (Some (tfprotov5.Encoded
                (bash.ResultObject (bash.mkConfig source vars')
                   (bash.variablesToBashDecls vars')))).
      split; [apply ValidateDataSourceConfig_configOf|].
      split; [by apply ReadDataSource_accepted|]. split; [done|].
      apply Permutation_nil_r in Hdiags. rewrite Hdiags. by split.
    + exists None.
      split; [apply ValidateDataSourceConfig_configOf|].
      split; [rewrite <-Hfound; apply ReadDataSource_rejected;
              by rewrite Hfound|].
      split; [done|]. split; [|done]. intros _ Hnil.
      rewrite Hnil in Hdiags. by apply Permutation_nil_l in Hdiags.
Qed.

(** X2. Whatever the wire value is, every diagnostic the decoder returns
    is an error (the handler for reading relies on there being no
    warnings), and it points nowhere, at the variables argument, or at a
    variable of the configuration it returns. *)
Theorem newBashScriptConfig_diagnostics (raw : tfprotov5.DynamicValue)
  (cfg : bash.bashScriptConfig) diags :
  bash.newBashScriptConfig raw = bash.Returned (cfg, diags) →
  Forall (λ d,
    tfprotov5.Severity d = tfprotov5.DiagnosticSeverityError
    ∧ (tfprotov5.Attribute d = None
       ∨ tfprotov5.Attribute d = Some ["variables"]
       ∨ ∃ name, name ∈ (bash.Variables cfg).*1
                 ∧ tfprotov5.Attribute d = Some ["variables"; name])) diags.
Proof.
  intros [[-> [err ->]]|[[Hvars ->]| ->]]%newBashScriptConfig_returns.
  - apply Forall_singleton. split; [done|by left].
  - apply Forall_singleton. split; [done|]. right. by left.
  - apply Forall_forall. intros d Hd.
    apply elem_of_concat in Hd as (new & Hd & Hnew).
    apply list_elem_of_fmap in Hnew as (entry & -> & Hentry).
    apply validateVariable_Attribute in Hd as [Hattr Hsev].
    split; [done|]. right. right. exists entry.1. split; [|done].
    apply list_elem_of_fmap. by exists entry.
Qed.

End DecoderFacts.

Section DecoderEdges.
Context `{!strconv.PrintTables} `{!tftypes.ErrorTexts} `{!big.Shortest}.
Implicit Types (vars obj : list (string * tftypes.Value)) (name : string).
Implicit Types (diags : list tfprotov5.Diagnostic).

(** X3. When the variables argument cannot be read as a map from names to
    values (it is a string, a list, a number, or not known yet), validation
    returns exactly one diagnostic, the error that points at the argument,
    no variable is looked at, and reading returns that diagnostic and no
    state. *)
Theorem variables_not_an_object (t : option tftypes.Type_) obj
  (source : string) (e : tftypes.error) :
  tftypes.As_string (attribute obj "source") = tftypes.Ok source →
  tftypes.As_map (attribute obj "variables") = tftypes.Err e →
  bash.newBashScriptConfig (objectConfig t obj)
  = bash.Returned (bash.mkConfig source [], [invalidVariablesDiag])
  ∧ bash.ValidateDataSourceConfig (requestWith (objectConfig t obj))
    = bash.Returned (tftypes.Ok
        (bash.mkValidateResponse [invalidVariablesDiag]))
  ∧ bash.ReadDataSource (requestWith (objectConfig t obj))
    = bash.Returned (tftypes.Ok
        (bash.mkReadResponse None [invalidVariablesDiag])).
Proof.
  intros Hsource Hvars.
  assert (bash.newBashScriptConfig (objectConfig t obj)
          = bash.Returned (bash.mkConfig source [], [invalidVariablesDiag]))
    as Hcfg by (by rewrite newBashScriptConfig_object, Hsource, Hvars).
  split; [done|].
  unfold bash.ValidateDataSourceConfig, bash.ReadDataSource, requestWith.
  cbn [bash.TypeName bash.Config]. by rewrite Hcfg.
Qed.

(** X4. When the source argument cannot be read as a string (it is not
    known yet, or is a value of another kind), both handlers panic with the
    message of the decoder, whatever the variables are: no diagnostic is
    returned for such a request. *)
Theorem source_not_a_string_panics (t : option tftypes.Type_) obj
  (e : tftypes.error) :
  tftypes.As_string (attribute obj "source") = tftypes.Err e →
  bash.ValidateDataSourceConfig (requestWith (objectConfig t obj))
  = bash.Panicked "source isn't a string"
  ∧ bash.ReadDataSource (requestWith (objectConfig t obj))
    = bash.Panicked "source isn't a string".
Proof.
  intros Hsource.
  unfold bash.ValidateDataSourceConfig, bash.ReadDataSource, requestWith.
  cbn [bash.TypeName bash.Config].
  by rewrite newBashScriptConfig_object, Hsource.
Qed.

(** X5. A configuration with a null in the place of the variables
    argument, which is what an argument that is left out arrives as, is
    taken as one without variables: validation has nothing to report and
    the result of reading is the empty text. *)
Theorem variables_left_out (t ty : option tftypes.Type_) obj
  (source : string) :
  tftypes.As_string (attribute obj "source") = tftypes.Ok source →
  mapGet obj "variables" = Some (tftypes.mkValue ty tftypes.vNil) →
  bash.ValidateDataSourceConfig (requestWith (objectConfig t obj))
  = bash.Returned (tftypes.Ok (bash.mkValidateResponse []))
  ∧ ∃ state,
      bash.ReadDataSource (requestWith (objectConfig t obj))
      = bash.Returned (tftypes.Ok (bash.mkReadResponse (Some state) []))
      ∧ resultOf state = Some EmptyString.
Proof.
  intros Hsource Hvars.
  assert (tftypes.As_map (attribute obj "variables") = tftypes.Ok []) as Hmap.
  { unfold attribute. by rewrite Hvars. }
  assert (bash.newBashScriptConfig (objectConfig t obj)
          = bash.Returned (bash.mkConfig source [], [])) as Hcfg
    by (by rewrite newBashScriptConfig_object, Hsource, Hmap).
  unfold bash.ValidateDataSourceConfig, bash.ReadDataSource, requestWith.
  cbn [bash.TypeName bash.Config]. rewrite Hcfg. split; [done|].
  by eexists.
Qed.

End DecoderEdges.

(** ** The decoder and the encoder together *)

Lemma mapSet_fresh {V} (m : list (string * V)) (k : string) (v : V) :
  k ∉ m.*1 → mapSet m k v = m ++ [(k, v)].
Proof.
  induction m as [|[k' v'] m IH]; [done|].
  cbn [fmap list_fmap fst mapSet]. intros [Hne Hk]%not_elem_of_cons.
  rewrite (proj2 (String.eqb_neq k' k)) by done. by rewrite IH.
Qed.

Lemma variablesType_fold (vars : list (string * tftypes.Value))
  (acc : list (string * tftypes.Type_)) :
  NoDup (acc.*1 ++ vars.*1) →
  foldl (λ atys '(k, v),
           if tftypes.Is v tftypes.String then mapSet atys k tftypes.String
           else if tftypes.Is v tftypes.Number then mapSet atys k tftypes.Number
           else if tftypes.Is v bash.listOfString
                then mapSet atys k bash.listOfString
           else if tftypes.Is v bash.mapOfString
                then mapSet atys k bash.mapOfString
           else mapSet atys k tftypes.DynamicPseudoType) acc vars
  = acc ++ ((λ e, (e.1, recordedType e.2)) <$> vars).
Proof.
  revert acc. induction vars as [|[k v] vars IH]; intros acc Hnd.
  { cbn. by rewrite app_nil_r. }
  cbn [foldl fmap list_fmap fst snd] in *.
  assert (k ∉ acc.*1) as Hfresh.
  { apply NoDup_app in Hnd as (_ & Hdisj & _). intros Hk.
    apply (Hdisj k Hk). apply list_elem_of_here. }
  assert (∀ ty, NoDup ((acc ++ [(k, ty)]).*1 ++ vars.*1)) as Hnext.
  { intros ty. rewrite fmap_app. cbn [fmap list_fmap fst].
    by rewrite <-app_assoc. }
  unfold recordedType. repeat case_match;
    rewrite mapSet_fresh, IH by (done || apply Hnext);
    by rewrite <-app_assoc.
Qed.

Lemma recordedType_supported (v : tftypes.Value) :
  ¬ unsupported v →
  recordedType v ∈ supportedTypes ∧ tftypes.Is v (recordedType v) = true.
Proof.
  intros Hv. unfold recordedType, supportedTypes.
  destruct (tftypes.Is v tftypes.String) eqn:Hs.
  { split; [apply list_elem_of_here|done]. }
  destruct (tftypes.Is v tftypes.Number) eqn:Hn.
  { split; [apply list_elem_of_further, list_elem_of_here|done]. }
  destruct (tftypes.Is v bash.listOfString) eqn:Hl.
  { split; [do 2 apply list_elem_of_further; apply list_elem_of_here|done]. }
  destruct (tftypes.Is v bash.mapOfString) eqn:Hm.
  { split; [do 3 apply list_elem_of_further; apply list_elem_of_here|done]. }
  by destruct Hv.
Qed.

Lemma recordedType_unsupported (v : tftypes.Value) :
  unsupported v → recordedType v = tftypes.DynamicPseudoType.
Proof. intros (Hs & Hn & Hl & Hm). unfold recordedType. by rewrite Hs, Hn, Hl, Hm. Qed.

(** X7. For variables with distinct names, the object type that
    [variablesType] recomputes for the response has the names of the
    variables, in their order, and gives every variable of one of the four
    types that very type, a type the value has; only a variable of another
    type is given the pseudo-type. *)
Theorem variablesType_describes (vars : list (string * tftypes.Value)) :
  NoDup vars.*1 →
  ∃ atys,
    bash.variablesType vars = tftypes.Object atys
    ∧ atys.*1 = vars.*1
    ∧ ∀ k v, (k, v) ∈ vars →
        ∃ ty, mapGet atys k = Some ty
              ∧ (unsupported v → ty = tftypes.DynamicPseudoType)
              ∧ (¬ unsupported v →
                 ty ∈ supportedTypes ∧ tftypes.Is v ty = true).
Proof.
  intros Hnd. exists ((λ e, (e.1, recordedType e.2)) <$> vars).
  assert (((λ e : string * tftypes.Value, (e.1, recordedType e.2)) <$> vars).*1
          = vars.*1) as Hkeys.
  { rewrite <-list_fmap_compose. by apply list_fmap_ext. }
  split; [|split; [done|]].
  - unfold bash.variablesType. destruct vars as [|e vars]; [done|].
    cbn [length Nat.eqb]. by rewrite variablesType_fold.
  - intros k v Hin. exists (recordedType v). split; [|split].
    + apply mapGet_Some; [by rewrite Hkeys|].
      apply list_elem_of_fmap. by exists (k, v).
    + apply recordedType_unsupported.
    + apply recordedType_supported.
Qed.

Section Accepted.
Context `{!strconv.PrintTables} `{!tftypes.ErrorTexts} `{!big.Shortest}.
Implicit Types (vars : list (string * tftypes.Value)) (name : string).

Lemma Is_String_not_Number (val : tftypes.Value) :
  tftypes.Is val tftypes.Number = true → tftypes.Is val tftypes.String = false.
Proof. destruct val as [[[]|] p]; by cbn. Qed.

(** What a turn of the loop that adds nothing has checked. *)
Lemma validateVariable_accepts name (val : tftypes.Value) :
  bash.validateVariable [] (name, val) = [] →
  bash.validVariableName name = true
  ∧ ¬ unsupported val
  ∧ (tftypes.Is val tftypes.Number = true →
     ∃ f, tftypes.As_Float val = tftypes.Ok f ∧ big.IsInt f = true).
Proof.
  intros Hnone.
  destruct (bash.validVariableName name) eqn:Hname.
  2: { destruct (validateVariable_bad_name name Hname) as (d & _ & Hd).
       by rewrite (Hd val []) in Hnone. }
  rewrite validateVariable_valid_name in Hnone by done.
  split; [done|]. split.
  - intros (Hs & Hn & Hl & Hm). by rewrite Hs, Hn, Hl, Hm in Hnone.
  - intros Hn. rewrite (Is_String_not_Number val Hn), Hn in Hnone.
    destruct (tftypes.As_Float val) as [f|e]; [|done].
    exists f. split; [done|]. by destruct (big.IsInt f).
Qed.

Lemma accepted_config (raw : tfprotov5.DynamicValue)
  (cfg : bash.bashScriptConfig) name (val : tftypes.Value) :
  bash.newBashScriptConfig raw = bash.Returned (cfg, []) →
  mapGet (bash.Variables cfg) name = Some val →
  bash.validateVariable [] (name, val) = [].
Proof.
  intros Hraw Hget.
  apply newBashScriptConfig_returns in Hraw as [[_ [err [=]]]|[[_ [=]]|Hd]].
  symmetry in Hd. eapply concat_validate_nil; [done|].
  by apply mapGet_elem_of.
Qed.

Lemma declOf_supported vars name (val : tftypes.Value) :
  mapGet vars name = Some val → ¬ unsupported val →
  strings.HasPrefix (declOf vars name) "declare -r" = true.
Proof.
  intros Hget Hval. unfold declOf, bash.writeDecl. rewrite Hget.
  change (default tftypes.zero (Some val)) with val.
  repeat case_match;
    rewrite ?writeElements_spaced, ?writeEntries_spaced;
    try done.
  by destruct Hval.
Qed.

(** X8. When the decoder returns no diagnostic, every variable of the
    configuration has a name of the form [A-Za-z_][A-Za-z0-9_]*, and its
    line in the text of the encoder is a declaration, never the comment
    that marks a value the encoder cannot write. *)
Theorem accepted_variables_are_declared (raw : tfprotov5.DynamicValue)
  (cfg : bash.bashScriptConfig) name :
  bash.newBashScriptConfig raw = bash.Returned (cfg, []) →
  name ∈ (bash.Variables cfg).*1 →
  identifier name
  ∧ strings.HasPrefix (declOf (bash.Variables cfg) name) "declare -r" = true
  ∧ declOf (bash.Variables cfg) name
    ≠ "# ERROR: Don't know how to serialize " +:+ strconv.Quote name
        +:+ " for bash" +:+ nl.
Proof.
  intros Hraw [val Hget]%mapGet_is_Some.
  destruct (validateVariable_accepts name val) as (Hname & Hval & _);
    [by eapply accepted_config|].
  pose proof (declOf_supported _ name val Hget Hval) as Hprefix.
  split; [by apply validVariableName_identifier|]. split; [done|].
  intros Heq. by rewrite Heq in Hprefix.
Qed.

(** X9. When the decoder returns no diagnostic, every variable of type
    number holds an integer, as the encoder assumes: its line is the
    integer declaration with the decimal text of the number, and that text
    is made of digits after an optional minus sign when the precision of
    the number holds it digit by digit. *)
Theorem accepted_numbers_are_integers (raw : tfprotov5.DynamicValue)
  (cfg : bash.bashScriptConfig) name (val : tftypes.Value) :
  bash.newBashScriptConfig raw = bash.Returned (cfg, []) →
  mapGet (bash.Variables cfg) name = Some val →
  tftypes.Is val tftypes.Number = true →
  ∃ f,
    tftypes.As_Float val = tftypes.Ok f
    ∧ big.IsInt f = true
    ∧ declOf (bash.Variables cfg) name
      = "declare -ri " +:+ name +:+ "=" +:+ big.Text f +:+ nl
    ∧ (within f = true →
       Forall (λ c, c ∈ "-"%char :: decimals)
         (String.list_ascii_of_string (big.Text f))).
Proof.
  intros Hraw Hget Hn.
  destruct (validateVariable_accepts name val) as (_ & _ & Hnum);
    [by eapply accepted_config|].
  destruct (Hnum Hn) as (f & Hf & Hint).
  exists f. split; [done|]. split; [done|]. split; [|by apply Text_digits].
  unfold declOf, bash.writeDecl. rewrite Hget.
  change (default tftypes.zero (Some val)) with val.
  rewrite (Is_String_not_Number val Hn), Hn, Hf. cbn [tftypes.or_zero].
  by string_norm.
Qed.

End Accepted.

(** ** The lists and maps the encoder writes, read back by the shell *)

Lemma fields_quoted (acc s tail : string) :
  sh.fields sh.Quoted (Some acc) (escapeQuotes s +:+ String squote tail)
  = sh.fields sh.Plain (Some (acc +:+ s)) tail.
Proof.
  revert acc. induction s as [|c rest IH]; intros acc; cbn [escapeQuotes].
  - cbn. by rewrite append_empty_r.
  - destruct (Ascii.eqb c squote) eqn:Hc.
    + apply Ascii.eqb_eq in Hc as ->. cbn. cbn in IH.
      unfold sh.push. cbn [default]. rewrite IH. by string_norm.
    + cbn. rewrite Hc. cbn in IH. unfold sh.push. cbn [default].
      rewrite IH. by string_norm.
Qed.

Lemma fields_bashQuoteString (s tail : string) :
  sh.fields sh.Plain None (bash.bashQuoteString s +:+ tail)
  = sh.fields sh.Plain (Some s) tail.
Proof.
  unfold bash.bashQuoteString. rewrite ReplaceAll_single_quote.
  string_norm. cbn [sh.fields Ascii.eqb Bool.eqb squote default].
  change (String "'" tail) with (String squote tail).
  by rewrite fields_quoted.
Qed.

Lemma fields_more (x : string) (l : list string) :
  sh.fields sh.Plain (Some x)
    (cat ((String.append " ") <$> (bash.bashQuoteString <$> l)))
  = Some (x :: l).
Proof.
  revert x. induction l as [|y l IH]; intros x; [done|].
  cbn [fmap list_fmap cat foldr]. string_norm.
  cbn [sh.fields Ascii.eqb Bool.eqb squote backslash sh.blank orb].
  fold (cat ((String.append " ") <$> (bash.bashQuoteString <$> l))).
  by rewrite fields_bashQuoteString, IH.
Qed.

Lemma fields_spaced (l : list string) :
  sh.fields sh.Plain None (spaced (bash.bashQuoteString <$> l)) = Some l.
Proof.
  destruct l as [|x l]; [done|]. cbn [fmap list_fmap spaced].
  by rewrite fields_bashQuoteString, fields_more.
Qed.

(** X10. What the encoder writes between the parentheses of an array, read
    the way the shell splits and unquotes words, is the list of the
    elements, each exactly as given and in the order given; this holds for
    elements with blanks, quotes, newlines or any other byte, for empty
    elements and for the empty list. *)
Theorem list_elements_read_back (l : list string) :
  sh.fields sh.Plain None
    (bash.writeElements 0 (stringValue <$> l) EmptyString)
  = Some l.
Proof.
  rewrite writeElements_spaced. cbn [String.append].
  rewrite <-list_fmap_compose.
  change (quoted ∘ stringValue) with bash.bashQuoteString.
  apply fields_spaced.
Qed.

Lemma quotedEntry_stringValue (k v : string) :
  quotedEntry (prod_map id stringValue (k, v))
  = bash.bashQuoteString k +:+ " " +:+ bash.bashQuoteString v.
Proof. done. Qed.

Lemma cat_entries (m : list (string * string)) :
  cat ((String.append " ")
         <$> (quotedEntry <$> (prod_map id stringValue <$> m)))
  = cat ((String.append " ") <$> (bash.bashQuoteString <$> flatEntries m)).
Proof.
  unfold cat, flatEntries. induction m as [|[k v] m IH]; [done|].
  cbn [fmap list_fmap mbind list_bind app foldr fst snd].
  rewrite quotedEntry_stringValue, IH. by string_norm.
Qed.

(** X11. What the encoder writes between the parentheses of an associative
    array, read the way the shell splits and unquotes words, is the keys
    and the values of the map, each key followed by its value, in the order
    in which the entries were met, whatever bytes they hold. *)
Theorem map_entries_read_back (m : list (string * string)) :
  sh.fields sh.Plain None
    (bash.writeEntries 0 (prod_map id stringValue <$> m) EmptyString)
  = Some (flatEntries m).
Proof.
  rewrite writeEntries_spaced. cbn [String.append].
  destruct m as [|[k v] m]; [done|].
  cbn [fmap list_fmap spaced].
  rewrite quotedEntry_stringValue, cat_entries. string_norm.
  rewrite fields_bashQuoteString.
  cbn [sh.fields Ascii.eqb Bool.eqb squote backslash sh.blank orb].
  rewrite fields_bashQuoteString.
  change (flatEntries ((k, v) :: m)) with (k :: v :: flatEntries m).
  by rewrite fields_more.
Qed.

(** ** Names, order and the shape of the text *)

Lemma subsequentByte_plain (c : ascii) :
  subsequentByte c = true →
  Ascii.eqb c squote = false ∧ Ascii.eqb c backslash = false
  ∧ sh.special c = false ∧ utf8.byte_of c < 0x80.
Proof.
  destruct c as [[] [] [] [] [] [] [] []]; vm_compute;
    first [by intros [=] | done].
Qed.

Lemma word_plain_bytes (s : string) :
  forallb subsequentByte (String.list_ascii_of_string s) = true →
  sh.word sh.Plain s = Some s.
Proof.
  induction s as [|c rest IH]; [done|].
  cbn [String.list_ascii_of_string forallb].
  intros [Hc Hrest]%andb_true_iff.
  destruct (subsequentByte_plain c Hc) as (Hq & Hb & Hs & _).
  cbn [sh.word]. by rewrite Hq, Hb, Hs, IH.
Qed.

Lemma list_ascii_of_string_app (a b : string) :
  String.list_ascii_of_string (a +:+ b)
  = String.list_ascii_of_string a ++ String.list_ascii_of_string b.
Proof. induction a as [|c a IH]; [done|]. cbn. by rewrite IH. Qed.

Lemma forallb_initial_subsequent (s : string) :
  bash.validVariableName s = true →
  forallb subsequentByte (String.list_ascii_of_string s) = true.
Proof.
  rewrite validVariableName_bytes. destruct s as [|c rest]; [done|].
  intros [Hc Hrest]%andb_true_iff.
  cbn [String.list_ascii_of_string forallb]. rewrite Hrest, andb_true_r.
  by apply initial_subsequent.
Qed.

(** X12. A name that passes the name check is a word the shell takes as it
    stands, with nothing to quote or escape, and all its bytes are ASCII.
    Two such names put together pass the check, and so does every
    beginning, other than the empty one, of such a name. *)
Theorem valid_names_are_plain_words :
  (∀ name, bash.validVariableName name = true →
     sh.unquote name = Some name
     ∧ Forall (λ c, utf8.byte_of c < 0x80) (String.list_ascii_of_string name))
  ∧ (∀ a b, bash.validVariableName a = true → bash.validVariableName b = true →
       bash.validVariableName (a +:+ b) = true)
  ∧ (∀ a b, a ≠ EmptyString → bash.validVariableName (a +:+ b) = true →
       bash.validVariableName a = true).
Proof.
  split; [|split].
  - intros name Hname%forallb_initial_subsequent.
    split; [by apply word_plain_bytes|].
    apply Forall_forall. intros c Hc%list_elem_of_In.
    rewrite forallb_forall in Hname.
    by destruct (subsequentByte_plain c (Hname c Hc)) as (_ & _ & _ & ?).
  - intros a b Ha Hb.
    pose proof (forallb_initial_subsequent b Hb) as Hb'.
    rewrite validVariableName_bytes in Ha |- *.
    destruct a as [|c rest]; [done|]. cbn [String.append].
    apply andb_true_iff in Ha as [Hc Hrest].
    rewrite Hc, list_ascii_of_string_app, forallb_app, Hrest, Hb'. done.
  - intros a b Hne. rewrite !validVariableName_bytes.
    destruct a as [|c rest]; [done|]. cbn [String.append].
    rewrite list_ascii_of_string_app, forallb_app.
    intros [Hc [Hrest _]%andb_true_iff]%andb_true_iff.
    by rewrite Hc, Hrest.
Qed.

Section Order.
Context `{!strconv.PrintTables} `{!tftypes.ErrorTexts} `{!big.Shortest}.
Implicit Types (vars : list (string * tftypes.Value)) (name : string).

(** X13. The order in which the map of variables hands out its entries
    shows only in the order of the diagnostics: for variables with distinct
    names met in two orders, validation returns the same diagnostics up to
    their order, and the text of the declarations is the same. *)
Theorem variables_order_is_irrelevant (source : string) vars vars' :
  NoDup vars.*1 → vars ≡ₚ vars' →
  ∃ diags diags',
    bash.ValidateDataSourceConfig (requestOf source vars)
    = bash.Returned (tftypes.Ok (bash.mkValidateResponse diags))
    ∧ bash.ValidateDataSourceConfig (requestOf source vars')
      = bash.Returned (tftypes.Ok (bash.mkValidateResponse diags'))
    ∧ diags ≡ₚ diags'
    ∧ bash.variablesToBashDecls vars = bash.variablesToBashDecls vars'.
Proof.
  intros Hnd Hp.
  exists (concat (bash.validateVariable [] <$> vars)),
         (concat (bash.validateVariable [] <$> vars')).
  split; [apply ValidateDataSourceConfig_configOf|].
  split; [apply ValidateDataSourceConfig_configOf|].
  split; [by apply concat_fmap_Permutation|].
  by apply variablesToBashDecls_Permutation.
Qed.

Lemma declOf_ends_line vars name :
  ∃ line, declOf vars name = line +:+ nl.
Proof.
  unfold declOf, bash.writeDecl.
  repeat case_match; eexists; rewrite <-?append_assoc; reflexivity.
Qed.

(** X14. The text of the declarations is empty exactly when there is no
    variable; with at least one variable it ends with a newline, so that
    what is put after it starts on a line of its own. *)
Theorem declarations_end_with_newline vars :
  (bash.variablesToBashDecls vars = EmptyString ↔ vars = [])
  ∧ (vars ≠ [] → ∃ text, bash.variablesToBashDecls vars = text +:+ nl).
Proof.
  assert (vars ≠ [] → ∃ text, bash.variablesToBashDecls vars = text +:+ nl)
    as Hends.
  { intros Hne. rewrite variablesToBashDecls_lines.
    pose proof (Strings_Permutation vars.*1) as Hp.
    destruct (sort.Strings vars.*1) as [|name names _] using rev_ind.
    { apply Permutation_nil in Hp. by destruct vars. }
    destruct (declOf_ends_line vars name) as [line Hline].
    exists (cat (declOf vars <$> names) +:+ line).
    rewrite fmap_app, cat_app. cbn [fmap list_fmap cat foldr].
    by rewrite Hline, append_empty_r, append_assoc. }
  split; [|done]. split; [|by intros ->].
  intros Hempty. destruct vars as [|e vars]; [done|].
  destruct Hends as [text Htext]; [done|].
  rewrite Htext in Hempty. by destruct text.
Qed.

End Order.

Section Undecodable.
Context `{!strconv.PrintTables} `{!tftypes.ErrorTexts} `{!big.Shortest}.

(** X15. A wire value that the codec refuses, or one that decodes to
    something other than an object (a string, say, or an object not known
    yet), gives exactly one diagnostic: the error about the schema, with
    the text of the failure and no pointer to an attribute.  Validation
    returns it and reading returns it with no state. *)
Theorem undecodable_configuration :
  (∀ text,
     let d := bash.errorDiag "Invalid configuration"
       ("The given configuration doesn't match the expected schema: "
          +:+ text +:+ ".") None in
     bash.ValidateDataSourceConfig (requestWith (tfprotov5.Malformed text))
     = bash.Returned (tftypes.Ok (bash.mkValidateResponse [d]))
     ∧ bash.ReadDataSource (requestWith (tfprotov5.Malformed text))
       = bash.Returned (tftypes.Ok (bash.mkReadResponse None [d])))
  ∧ (∀ v e, tftypes.As_map v = tftypes.Err e →
       let d := bash.errorDiag "Invalid configuration"
         ("The given configuration doesn't match the expected schema: "
            +:+ tftypes.Error e +:+ ".") None in
       bash.ValidateDataSourceConfig (requestWith (tfprotov5.Encoded v))
       = bash.Returned (tftypes.Ok (bash.mkValidateResponse [d]))
       ∧ bash.ReadDataSource (requestWith (tfprotov5.Encoded v))
         = bash.Returned (tftypes.Ok (bash.mkReadResponse None [d]))).
Proof.
  split.
  - intros text d. by split.
  - intros v e Hv d.
    unfold bash.ValidateDataSourceConfig, bash.ReadDataSource, requestWith,
      bash.newBashScriptConfig.
    cbn [bash.TypeName bash.Config tfprotov5.Unmarshal]. rewrite Hv.
    by split.
Qed.

End Undecodable.

(** ** The further properties at work on concrete requests *)

#[local] Existing Instance noWideRunes.
#[local] Existing Instance plainErrors.
#[local] Existing Instance unrounded.

Lemma handlers_agree_witness :
  let req := bash.mkRequest "aws_instance" (tfprotov5.Malformed "junk") in
  let flag := tftypes.NewValue tftypes.Bool (tftypes.vBool true) in
  let vars := [("1abc", stringValue "x"); ("flag", flag)] in
  let vars' := [("flag", flag); ("1abc", stringValue "x")] in
  bash.TypeName req ≠ "bash_script"
  ∧ bash.ValidateDataSourceConfig req
    = bash.Returned (tftypes.Err (tftypes.errorString
        "unsupported data resource type aws_instance"))
  ∧ bash.ReadDataSource req
    = bash.Returned (tftypes.Err (tftypes.errorString
        "unsupported data resource type aws_instance"))
  ∧ vars ≡ₚ vars'
  ∧ ∃ diags diags' state,
      bash.ValidateDataSourceConfig (requestOf "echo" vars)
      = bash.Returned (tftypes.Ok (bash.mkValidateResponse diags))
      ∧ bash.ReadDataSource (requestOf "echo" vars')
        = bash.Returned (tftypes.Ok (bash.mkReadResponse state diags'))
      ∧ diags ≡ₚ diags'
      ∧ (state = None ↔ diags ≠ []).
Proof.
  intros req flag vars vars'.
  assert (bash.TypeName req ≠ "bash_script") as Hne by done.
  assert (vars ≡ₚ vars') as Hp by apply Permutation_swap.
  destruct handlers_agree as (Hother & _ & _ & Horders).
  split; [done|]. split; [exact (proj1 (Hother req Hne))|].
  split; [exact (proj2 (Hother req Hne))|]. split; [done|].
  exact (Horders "echo" vars vars' Hp).
Defined.

Lemma newBashScriptConfig_diagnostics_witness :
  let vars := [("1abc", stringValue "x"); ("ok", stringValue "y")] in
  let d := bash.errorDiag "Invalid variable name"
             ("Cannot use " +:+ inQuotes "1abc" +:+ " as a Bash variable name.")
             (Some ["variables"; "1abc"]) in
  bash.newBashScriptConfig (configOf "echo" vars)
  = bash.Returned (bash.mkConfig "echo" vars, [d])
  ∧ Forall (λ d,
      tfprotov5.Severity d = tfprotov5.DiagnosticSeverityError
      ∧ (tfprotov5.Attribute d = None
         ∨ tfprotov5.Attribute d = Some ["variables"]
         ∨ ∃ name, name ∈ vars.*1
                   ∧ tfprotov5.Attribute d = Some ["variables"; name])) [d].
Proof.
  intros vars d.
  assert (bash.newBashScriptConfig (configOf "echo" vars)
          = bash.Returned (bash.mkConfig "echo" vars, [d])) as Hraw
    by (by vm_compute).
  split; [done|]. exact (newBashScriptConfig_diagnostics _ _ _ Hraw).
Defined.

Lemma variables_not_an_object_witness :
  let obj := [("source", stringValue "echo"); ("variables", stringValue "x")] in
  let e := tftypes.asError (stringValue "x") tftypes.ptrMap in
  tftypes.As_string (attribute obj "source") = tftypes.Ok "echo"
  ∧ tftypes.As_map (attribute obj "variables") = tftypes.Err e
  ∧ bash.ReadDataSource (requestWith (objectConfig (Some bash.bashScriptType) obj))
    = bash.Returned (tftypes.Ok
        (bash.mkReadResponse None [invalidVariablesDiag])).
Proof.
  intros obj e.
  assert (tftypes.As_string (attribute obj "source") = tftypes.Ok "echo")
    as Hsource by done.
  assert (tftypes.As_map (attribute obj "variables") = tftypes.Err e)
    as Hvars by done.
  split; [done|]. split; [done|].
  exact (proj2 (proj2 (variables_not_an_object
    (Some bash.bashScriptType) obj "echo" e Hsource Hvars))).
Defined.

Lemma source_not_a_string_panics_witness :
  let unknown := tftypes.NewValue tftypes.String tftypes.vUnknown in
  let obj := [("source", unknown); ("variables", stringValue "x")] in
  tftypes.As_string (attribute obj "source")
  = tftypes.Err (tftypes.asError unknown tftypes.ptrString)
  ∧ bash.ValidateDataSourceConfig
      (requestWith (objectConfig (Some bash.bashScriptType) obj))
    = bash.Panicked "source isn't a string"
  ∧ bash.ReadDataSource
      (requestWith (objectConfig (Some bash.bashScriptType) obj))
    = bash.Panicked "source isn't a string".
Proof.
  intros unknown obj.
  assert (tftypes.As_string (attribute obj "source")
          = tftypes.Err (tftypes.asError unknown tftypes.ptrString))
    as Hsource by done.
  split; [done|].
  exact (source_not_a_string_panics (Some bash.bashScriptType) obj _ Hsource).
Defined.

Lemma variables_left_out_witness :
  let none := tftypes.NewValue tftypes.DynamicPseudoType tftypes.vNil in
  let obj := [("source", stringValue "echo hi"); ("variables", none);
              ("result", tftypes.NewValue tftypes.String tftypes.vNil)] in
  tftypes.As_string (attribute obj "source") = tftypes.Ok "echo hi"
  ∧ mapGet obj "variables" = Some none
  ∧ bash.ValidateDataSourceConfig
      (requestWith (objectConfig (Some bash.bashScriptType) obj))
    = bash.Returned (tftypes.Ok (bash.mkValidateResponse []))
  ∧ ∃ state,
      bash.ReadDataSource
        (requestWith (objectConfig (Some bash.bashScriptType) obj))
      = bash.Returned (tftypes.Ok (bash.mkReadResponse (Some state) []))
      ∧ resultOf state = Some EmptyString.
Proof.
  intros none obj.
  assert (tftypes.As_string (attribute obj "source") = tftypes.Ok "echo hi")
    as Hsource by done.
  assert (mapGet obj "variables" = Some none) as Hvars by done.
  split; [done|]. split; [done|].
  exact (variables_left_out (Some bash.bashScriptType)
           (Some tftypes.DynamicPseudoType) obj "echo hi" Hsource Hvars).
Defined.

Lemma variablesType_describes_witness :
  let flag := tftypes.NewValue tftypes.Bool (tftypes.vBool true) in
  let vars := [("greeting", stringValue "Hello"); ("flag", flag)] in
  NoDup vars.*1
  ∧ bash.variablesType vars
    = tftypes.Object [("greeting", tftypes.String);
                      ("flag", tftypes.DynamicPseudoType)]
  ∧ ∃ atys,
      bash.variablesType vars = tftypes.Object atys
      ∧ atys.*1 = vars.*1
      ∧ ∀ k v, (k, v) ∈ vars →
          ∃ ty, mapGet atys k = Some ty
                ∧ (unsupported v → ty = tftypes.DynamicPseudoType)
                ∧ (¬ unsupported v →
                   ty ∈ supportedTypes ∧ tftypes.Is v ty = true).
Proof.
  intros flag vars.
  assert (NoDup vars.*1) as Hnd by (apply (bool_decide_unpack _); by vm_compute).
  split; [done|]. split; [done|]. exact (variablesType_describes vars Hnd).
Defined.

Lemma accepted_variables_are_declared_witness :
  let vars := [("greeting", stringValue "Hello")] in
  let cfg := bash.mkConfig "echo" vars in
  bash.newBashScriptConfig (configOf "echo" vars) = bash.Returned (cfg, [])
  ∧ "greeting" ∈ vars.*1
  ∧ identifier "greeting"
  ∧ strings.HasPrefix (declOf vars "greeting") "declare -r" = true.
Proof.
  intros vars cfg.
  assert (bash.newBashScriptConfig (configOf "echo" vars)
          = bash.Returned (cfg, [])) as Hraw by (by vm_compute).
  assert ("greeting" ∈ vars.*1) as Hin by apply list_elem_of_here.
  destruct (accepted_variables_are_declared _ cfg "greeting" Hraw Hin)
    as (Hid & Hprefix & _).
  split; [done|]. split; [done|]. by split.
Defined.

Lemma accepted_numbers_are_integers_witness :
  let three := numberValue (integerFloat 53 3) in
  let vars := [("num", three)] in
  let cfg := bash.mkConfig "echo" vars in
  bash.newBashScriptConfig (configOf "echo" vars) = bash.Returned (cfg, [])
  ∧ mapGet vars "num" = Some three
  ∧ tftypes.Is three tftypes.Number = true
  ∧ within (integerFloat 53 3) = true
  ∧ declOf vars "num" = "declare -ri num=3" +:+ nl
  ∧ Forall (λ c, c ∈ "-"%char :: decimals)
      (String.list_ascii_of_string (big.Text (integerFloat 53 3))).
Proof.
  intros three vars cfg.
  assert (bash.newBashScriptConfig (configOf "echo" vars)
          = bash.Returned (cfg, [])) as Hraw by (by vm_compute).
  assert (mapGet vars "num" = Some three) as Hget by done.
  assert (tftypes.Is three tftypes.Number = true) as Hn by done.
  assert (within (integerFloat 53 3) = true) as Hin by (by vm_compute).
  destruct (accepted_numbers_are_integers _ cfg "num" three Hraw Hget Hn)
    as (f & [= <-] & _ & Hline & Hdigits).
  split; [done|]. split; [done|]. split; [done|]. split; [done|].
  split; [exact Hline|exact (Hdigits Hin)].
Defined.

Lemma valid_names_are_plain_words_witness :
  bash.validVariableName "device_names" = true
  ∧ bash.validVariableName "a1" = true
  ∧ "device" ≠ EmptyString
  ∧ sh.unquote "device_names" = Some "device_names"
  ∧ bash.validVariableName ("device_names" +:+ "a1") = true
  ∧ bash.validVariableName "device" = true.
Proof.
  assert (bash.validVariableName "device_names" = true) as Hname by done.
  assert (bash.validVariableName "a1" = true) as Hother by done.
  assert ("device" ≠ EmptyString) as Hne by done.
  destruct valid_names_are_plain_words as (Hplain & Happ & Hprefix).
  split; [done|]. split; [done|]. split; [done|]. split; [|split].
  - exact (proj1 (Hplain "device_names" Hname)).
  - exact (Happ "device_names" "a1" Hname Hother).
  - exact (Hprefix "device" "_names" Hne Hname).
Defined.

Lemma variables_order_is_irrelevant_witness :
  let bad := ("1abc", stringValue "x") in
  let worse := (EmptyString, stringValue "y") in
  NoDup [bad; worse].*1 ∧ [bad; worse] ≡ₚ [worse; bad]
  ∧ ∃ diags diags',
      bash.ValidateDataSourceConfig (requestOf "echo" [bad; worse])
      = bash.Returned (tftypes.Ok (bash.mkValidateResponse diags))
      ∧ bash.ValidateDataSourceConfig (requestOf "echo" [worse; bad])
        = bash.Returned (tftypes.Ok (bash.mkValidateResponse diags'))
      ∧ diags ≡ₚ diags'
      ∧ bash.variablesToBashDecls [bad; worse]
        = bash.variablesToBashDecls [worse; bad].
Proof.
  intros bad worse.
  assert (NoDup [bad; worse].*1) as Hnd
    by (apply (bool_decide_unpack _); by vm_compute).
  assert ([bad; worse] ≡ₚ [worse; bad]) as Hp by apply Permutation_swap.
  split; [done|]. split; [done|].
  exact (variables_order_is_irrelevant "echo" _ _ Hnd Hp).
Defined.

Lemma declarations_end_with_newline_witness :
  let vars := [("greeting", stringValue "Hello")] in
  vars ≠ []
  ∧ ∃ text, bash.variablesToBashDecls vars = text +:+ nl.
Proof.
  intros vars.
  assert (vars ≠ []) as Hne by done.
  split; [done|]. exact (proj2 (declarations_end_with_newline vars) Hne).
Defined.

Lemma undecodable_configuration_witness :
  let v := stringValue "not an object" in
  let e := tftypes.asError v tftypes.ptrMap in
  tftypes.As_map v = tftypes.Err e
  ∧ bash.ReadDataSource (requestWith (tfprotov5.Encoded v))
    = bash.Returned (tftypes.Ok (bash.mkReadResponse None
        [bash.errorDiag "Invalid configuration"
           ("The given configuration doesn't match the expected schema: "
              +:+ tftypes.Error e +:+ ".") None])).
Proof.
  intros v e.
  assert (tftypes.As_map v = tftypes.Err e) as Hv by done.
  split; [done|]. exact (proj2 (proj2 undecodable_configuration v e Hv)).
Defined.
